(** * eBay scraper: a shallow embedding of [script.py] and its properties

    The development follows the class [EbayScraper] of [script.py]:
    - Python text is held as its UTF-8 bytes in [string];
    - a scraped product (a Python [dict] from field name to text) is a
      [gmap string string];
    - a listing node of the parsed page is given by what [item.find] answers for
      each of the selectors the scraper uses;
    - printing, network requests, sleeping and exceptions are explicit: a
      computation yields the list of events it performed and either a value
      or a raised exception. *)

From Stdlib Require Import ZArith QArith Ascii String DecimalString Lia.
From Stdlib Require Import DecimalPos DecimalZ.
From stdpp Require Import base option list list_numbers gmap strings.

Local Open Scope Z_scope.

(** * Python text *)

Module PyStr.

Definition is_upper (c : ascii) : bool :=
  let n := N_of_ascii c in ((65 <=? n) && (n <=? 90))%N.

Definition lower_char (c : ascii) : ascii :=
  if is_upper c then ascii_of_N (N_of_ascii c + 32) else c.

(** [p] holds of every character of [s]. *)
Fixpoint all_chars (p : ascii -> bool) (s : string) : bool :=
  match s with
  | EmptyString => true
  | String c t => p c && all_chars p t
  end.

(** [s.isascii()] *)
Definition is_ascii (s : string) : bool :=
  all_chars (fun c => (N_of_ascii c <? 128)%N) s.

(** [s.lower()] where [s] is ASCII text: the letters A to Z are lowered and
    nothing else changes.  On other text [str.lower] also lowers the letters
    outside ASCII, which this function leaves as they are. *)
Fixpoint lower (s : string) : string :=
  match s with
  | EmptyString => EmptyString
  | String c t => String (lower_char c) (lower t)
  end.

(** [needle in hay]: substring test. *)
Fixpoint contains (needle hay : string) : bool :=
  String.prefix needle hay ||
  match hay with
  | EmptyString => false
  | String _ t => contains needle t
  end.

(** [s.replace(old, new)] for a non-empty [old], scanning left to right;
    [skip] counts the characters of a match still to be dropped. *)
Fixpoint replace_from (old new : string) (skip : nat) (s : string) : string :=
  match s with
  | EmptyString => EmptyString
  | String c t =>
      match skip with
      | S k => replace_from old new k t
      | O =>
          if String.prefix old s
          then new +:+ replace_from old new (String.length old - 1) t
          else String c (replace_from old new 0 t)
      end
  end.

(** [s.replace("", new)] puts [new] around every character. *)
Fixpoint intersperse (new s : string) : string :=
  match s with
  | EmptyString => new
  | String c t => new +:+ String c (intersperse new t)
  end.

Definition replace (old new s : string) : string :=
  match old with
  | EmptyString => intersperse new s
  | _ => replace_from old new 0 s
  end.

(** [s.split(sep)[0]] for a non-empty [sep]: the text before the first
    occurrence of [sep], the whole text when there is none. *)
Fixpoint split_head (sep s : string) : string :=
  match s with
  | EmptyString => EmptyString
  | String c t =>
      if String.prefix sep s then EmptyString else String c (split_head sep t)
  end.

(** The ASCII characters for which [str.isspace] holds; [strip] below is
    [str.strip] on ASCII text (the blanks outside ASCII are not dropped). *)
Definition is_space (c : ascii) : bool :=
  let n := N_of_ascii c in
  (((9 <=? n) && (n <=? 13)) || ((28 <=? n) && (n <=? 32)))%N.

Fixpoint lstrip (s : string) : string :=
  match s with
  | EmptyString => EmptyString
  | String c t => if is_space c then lstrip t else s
  end.

Fixpoint rstrip (s : string) : string :=
  match s with
  | EmptyString => EmptyString
  | String c t =>
      match rstrip t with
      | EmptyString => if is_space c then EmptyString else String c EmptyString
      | t' => String c t'
      end
  end.

(** [s.strip()] *)
Definition strip (s : string) : string := rstrip (lstrip s).

(** [str(n)] for an [int]. *)
Definition of_int (n : Z) : string := NilZero.string_of_int (Z.to_int n).

(** The text of a currency sign given by its UTF-8 bytes. *)
Definition pound : string := String "194" (String "163" EmptyString).
Definition euro : string :=
  String "226" (String "130" (String "172" EmptyString)).

End PyStr.

(** * Python [float(text)] on decimal numerals

    [float] returns a double or raises [ValueError].  A reading says which,
    where the model can tell: [Parsed q] when the numeral denotes exactly the
    double of value [q], so that no rounding takes place; [Fails] when
    [float] raises [ValueError]; and [Unread] for the texts the model leaves
    alone: text that is not ASCII (there [float] takes further blanks and
    digits), the spellings of the non-finite floats (inf, infinity, nan),
    negative zero, and the numerals [float] would round.

    The grammar is the one of [float] on ASCII text: optional blanks around,
    an optional sign, digits with an optional fractional part (digits may be
    grouped by single underscores) and an optional exponent. *)

Module PyFloat.

Inductive reading :=
| Parsed (value : Q)
| Fails
| Unread.

Definition is_digit (c : ascii) : bool :=
  let n := N_of_ascii c in ((48 <=? n) && (n <=? 57))%N.

Definition digit_val (c : ascii) : Z := Z.of_N (N_of_ascii c - 48).

(** Reads a run of digits (with inner underscores) from the front of [s]:
    the number read so far, how many digits it has, and the rest. *)
Fixpoint digitpart (s : string) (acc : Z) (cnt : nat) : Z * nat * string :=
  match s with
  | EmptyString => (acc, cnt, s)
  | String c t =>
      if is_digit c then digitpart t (acc * 10 + digit_val c) (S cnt)
      else if Ascii.eqb c "_" && negb (Nat.eqb cnt 0) then
        match t with
        | String d _ => if is_digit d then digitpart t acc cnt else (acc, cnt, s)
        | EmptyString => (acc, cnt, s)
        end
      else (acc, cnt, s)
  end.

(** An optional sign: [true] for minus. *)
Definition sign (s : string) : bool * string :=
  match s with
  | String "-" t => (true, t)
  | String "+" t => (false, t)
  | _ => (false, s)
  end.

(** [m * 10 ^ e] as a rational. *)
Definition scale (m e : Z) : Q :=
  if 0 <=? e then inject_Z (m * 10 ^ e)
  else Qmake m (Z.to_pos (10 ^ (- e))).

(** The exponent part: [None] when malformed, else the exponent and the
    rest. *)
Definition exponent (s : string) : option (Z * string) :=
  match s with
  | String c t =>
      if Ascii.eqb c "e" || Ascii.eqb c "E" then
        let '(neg, t1) := sign t in
        let '(e, n, rest) := digitpart t1 0 0 in
        if Nat.eqb n 0 then None
        else Some (if neg then - e else e, rest)
      else Some (0, s)
  | EmptyString => Some (0, s)
  end.

(** The blanks [float] skips around an ASCII numeral: space, tab, line
    feed, vertical tab, form feed and carriage return.  The separators
    U+001C to U+001F, which [str.strip] drops, are not among them. *)
Definition is_blank (c : ascii) : bool :=
  let n := N_of_ascii c in (((9 <=? n) && (n <=? 13)) || (n =? 32))%N.

Fixpoint ltrim (s : string) : string :=
  match s with
  | EmptyString => EmptyString
  | String c t => if is_blank c then ltrim t else s
  end.

Fixpoint rtrim (s : string) : string :=
  match s with
  | EmptyString => EmptyString
  | String c t =>
      match rtrim t with
      | EmptyString => if is_blank c then EmptyString else String c EmptyString
      | t' => String c t'
      end
  end.

Definition trim (s : string) : string := rtrim (ltrim s).

(** The spellings of the non-finite floats, in any case. *)
Definition special (s : string) : bool :=
  let l := PyStr.lower s in
  String.eqb l "inf" || String.eqb l "infinity" || String.eqb l "nan".

(** A rational in lowest terms that is the value of a double: the numerator
    is below [2 ^ 53] in magnitude and the denominator is a power of two, at
    most [2 ^ 1022]. *)
Definition is_double (q : Q) : bool :=
  let d := Z.pos (Qden q) in
  (Z.abs (Qnum q) <? 2 ^ 53) && (d =? 2 ^ Z.log2 d) && (Z.log2 d <=? 1022).

(** The result of a float operation whose exact result is [q]: [q] itself,
    in lowest terms, when it is a double; [None] when the operation would
    round. *)
Definition double (q : Q) : option Q :=
  let r := Qred q in
  if is_double r then Some r else None.

(** [float(s)] *)
Definition parse (s : string) : reading :=
  if negb (PyStr.is_ascii s) then Unread
  else
    let '(neg, s1) := sign (trim s) in
    if special s1 then Unread
    else
      let '(ip, n_int, s2) := digitpart s1 0 0 in
      let '(m, n_frac, s3) :=
        match s2 with
        | String "." t => digitpart t ip 0
        | _ => (ip, O, s2)
        end in
      if Nat.eqb n_int 0 && Nat.eqb n_frac 0 then Fails
      else
        match exponent s3 with
        | Some (e, EmptyString) =>
            let e := e - Z.of_nat n_frac in
            if (400 <? Z.abs e) || (neg && (m =? 0)) then Unread
            else
              match double (scale m e) with
              | Some v => Parsed (if neg then Qopp v else v)
              | None => Unread
              end
        | _ => Fails
        end.

End PyFloat.

(** * Events, exceptions and the computations of the scraper *)

(** The exceptions the code raises or catches.  [HTTPError] is a subclass
    of [requests.RequestException]. *)
Inductive exn :=
| RequestException (msg : string)
| HTTPError (status : Z)
| KeyError (key : string).

Definition is_RequestException (e : exn) : bool :=
  match e with
  | RequestException _ | HTTPError _ => true
  | KeyError _ => false
  end.

Inductive outcome (A : Type) :=
| Returns (a : A)
| Raises (e : exn).
Arguments Returns {A} a.
Arguments Raises {A} e.

(** What the scraper does to the outside: requests, pauses, the file of the
    diagnosis and the lines it prints. *)
Inductive event :=
| Get (url : string)                     (* self.session.get(url, timeout=15) *)
| Sleep                                  (* time.sleep(random.uniform(2, 4)) *)
| WriteDebugFile (text : string)         (* debug_response.html *)
| PrintDebugUrl (url : string)
| PrintScraping (page max_pages : Z)
| PrintFound (n : nat)
| PrintNoProductsWarning
| PrintDiagnosing
| PrintStatus (status_code : Z) (content_length : nat)
| PrintForbidden
| PrintRateLimited
| PrintCaptcha
| PrintSavedResponse
| PrintDiagnosisError (e : exn)
| PrintNetworkError (e : exn)
| PrintUnexpectedError (e : exn)
| PrintTraceback
| PrintDebugContainers (n : nat)
| PrintDebugFailedItem (idx : nat)
| PrintDebugNoTitle
| PrintDebugExtractionError (e : exn)
| PrintTotal (n : nat)
| PrintAverage (avg : Q)
| PrintRange (lo hi : Q).

(** A computation: the events performed, in order, and how it ended. *)
Definition io (A : Type) : Type := list event * outcome A.

Definition io_ret {A} (a : A) : io A := ([], Returns a).

Definition io_bind {A B} (f : A -> io B) (m : io A) : io B :=
  match m with
  | (tr, Returns a) => let '(tr', r) := f a in (tr ++ tr', r)
  | (tr, Raises e) => (tr, Raises e)
  end.

#[global] Instance io_mret : MRet io := @io_ret.
#[global] Instance io_mbind : MBind io := @io_bind.

Definition emit (e : event) : io unit := ([e], Returns tt).
Definition raise {A} (e : exn) : io A := ([], Raises e).

(** [try: body except Exception as e: handler e] *)
Definition try_except {A} (body : io A) (handler : exn -> io A) : io A :=
  match body with
  | (tr, Raises e) => let '(tr', r) := handler e in (tr ++ tr', r)
  | done => done
  end.

(** [if flag: print(...)] *)
Definition when (flag : bool) (m : io unit) : io unit :=
  if flag then m else mret tt.

Definition trace {A} (m : io A) : list event := fst m.
Definition result {A} (m : io A) : outcome A := snd m.

(** * The parsed page *)

(** An element found in the page: its text as [get_text(strip=True)] gives
    it, and its attributes. *)
Record Tag := { text : string; attrs : gmap string string }.

(** [tag[key]] raises [KeyError] on a missing attribute. *)
Definition getitem (tag : Tag) (key : string) : io string :=
  match attrs tag !! key with
  | Some v => mret v
  | None => raise (KeyError key)
  end.

(** The queries [_extract_product_data] makes on a listing node. *)
Inductive selector :=
| SpanRoleHeading          (* find('span', {'role': 'heading'}) *)
| DivItemTitle             (* find('div', {'class': 's-item__title'}) *)
| H3ItemTitle              (* find('h3', {'class': 's-item__title'}) *)
| SpanItemPrice            (* find('span', {'class': 's-item__price'}) *)
| SpanSecondaryInfo        (* find('span', {'class': 'SECONDARY_INFO'}) *)
| SpanConditionText        (* find('span', string=<New, Used or Pre-Owned>) *)
| SpanItemShipping         (* find('span', {'class': 's-item__shipping'}) *)
| SpanItemLogisticsCost    (* find('span', {'class': 's-item__logisticsCost'}) *)
| AItemLink                (* find('a', {'class': 's-item__link'}) *)
| SpanItemLocation         (* find('span', {'class': 's-item__location'}) *)
| SpanItemItemLocation     (* find('span', {'class': 's-item__itemLocation'}) *)
| Img                      (* find('img') *)
| SpanItemQuantitySold.    (* find('span', {'class': 's-item__quantitySold'}) *)

(** A listing node, by the answer of [item.find] to each query: the first
    matching element, or [None]. *)
Definition ListingNode : Type := selector -> option Tag.

Definition find (item : ListingNode) (sel : selector) : option Tag := item sel.

(** [a or b] on the results of [find]: an element is always truthy. *)
Definition or_else (a b : option Tag) : option Tag :=
  match a with
  | Some _ => a
  | None => b
  end.
Infix "|||" := or_else (at level 50, left associativity).

(** The parsed document, by the answers of the two [find_all] queries. *)
Record Soup := {
  li_s_item : list ListingNode;          (* find_all('li', {'class': 's-item'}) *)
  div_s_item_wrapper : list ListingNode  (* find_all('div', {'class': 's-item__wrapper'}) *)
}.

Record Response := {
  status_code : Z;
  content : string;      (* response.content, the raw bytes *)
  resp_text : string;    (* response.text *)
  soup : Soup            (* BeautifulSoup(response.content, 'html.parser') *)
}.

(** * The scraper object *)

Record EbayScraper := {
  selected_fields : list string;
  debug_mode : bool
}.

Definition base_url : string := "https://www.ebay.com/sch/i.html".

(** ['name' in self.selected_fields] *)
Definition selected (self : EbayScraper) (name : string) : bool :=
  bool_decide (name ∈ selected_fields self).

(** The titles of sponsored and header items. *)
Definition rejected_titles : list string := ["Shop on eBay"; "New Listing"; ""].

(** * [_extract_product_data] *)

Section Extraction.

Variable self : EbayScraper.
Variable item : ListingNode.
(** [datetime.now().strftime('%Y-%m-%d %H:%M:%S')] at the time of the call *)
Variable now : string.

(** The title block: [None] stands for its [return None]. *)
Definition title_block (product : gmap string string)
  : io (option (gmap string string)) :=
  if selected self "title" then
    let title_elem :=
      find item SpanRoleHeading ||| find item DivItemTitle
        ||| find item H3ItemTitle in
    match title_elem with
    | Some elem =>
        let title := text elem in
        if bool_decide (title ∈ rejected_titles) then mret None
        else mret (Some (<["title" := title]> product))
    | None =>
        when (debug_mode self) (emit PrintDebugNoTitle);;
        mret None
    end
  else mret (Some product).

Definition text_or (elem : option Tag) (default : string) : string :=
  match elem with
  | Some e => text e
  | None => default
  end.

(** The blocks after the title, up to the final [return]. *)
Definition fields_block (product : gmap string string)
  : io (option (gmap string string)) :=
  let product :=
    if selected self "price" then
      let price_elem := find item SpanItemPrice in
      <["price" := text_or price_elem "N/A"]> product
    else product in
  let product :=
    if selected self "condition" then
      let condition_elem :=
        find item SpanSecondaryInfo ||| find item SpanConditionText in
      <["condition" := text_or condition_elem "N/A"]> product
    else product in
  let product :=
    if selected self "shipping" then
      let shipping_elem :=
        find item SpanItemShipping ||| find item SpanItemLogisticsCost in
      <["shipping" := text_or shipping_elem "N/A"]> product
    else product in
  product ←
    (if selected self "url" then
       let a_tag := find item AItemLink in
       href ←
         match a_tag with
         | Some a =>
             if bool_decide (is_Some (attrs a !! "href"))
             then getitem a "href" else mret "N/A"
         | None => mret "N/A"
         end;
       mret (<["url" := href]> product)
     else mret product);
  let product :=
    if selected self "location" then
      let location_elem :=
        find item SpanItemLocation ||| find item SpanItemItemLocation in
      <["location" := text_or location_elem "N/A"]> product
    else product in
  let product :=
    if selected self "image_url" then
      let img_tag := find item Img in
      match img_tag with
      | Some img =>
          <["image_url" :=
              default (default "N/A" (attrs img !! "data-src"))
                      (attrs img !! "src")]> product
      | None => <["image_url" := "N/A"]> product
      end
    else product in
  let product :=
    if selected self "sold_count" then
      let sold_elem := find item SpanItemQuantitySold in
      <["sold_count" := text_or sold_elem "0"]> product
    else product in
  let product := <["scraped_at" := now]> product in
  mret (if (1 <? size product)%nat then Some product else None).

Definition _extract_product_data : io (option (gmap string string)) :=
  try_except
    (started ← title_block ∅;
     match started with
     | None => mret None
     | Some product => fields_block product
     end)
    (fun e =>
       when (debug_mode self) (emit (PrintDebugExtractionError e));;
       mret None).

End Extraction.

(** * Query strings: [urllib.parse.urlencode] *)

Module Url.

(** The values put in the [params] dict. *)
Inductive pyval :=
| VStr (s : string)
| VInt (n : Z)
| VFloat (x : Q).

(** A [dict] in insertion order. *)
Definition dict : Type := list (string * pyval).

(** [d[k] = v]: a present key keeps its position, a new one goes last. *)
Fixpoint dict_set (k : string) (v : pyval) (d : dict) : dict :=
  match d with
  | [] => [(k, v)]
  | (k', v') :: rest =>
      if String.eqb k k' then (k, v) :: rest
      else (k', v') :: dict_set k v rest
  end.

Definition hex_digit (n : N) : ascii :=
  ascii_of_N (if (n <? 10)%N then 48 + n else 55 + n)%N.

(** The characters [quote] never escapes: letters, digits and [_.-~]. *)
Definition always_safe (c : ascii) : bool :=
  let n := N_of_ascii c in
  (((48 <=? n) && (n <=? 57)) || ((65 <=? n) && (n <=? 90))
   || ((97 <=? n) && (n <=? 122))
   || (n =? 95) || (n =? 46) || (n =? 45) || (n =? 126))%N.

(** [quote_plus(s)]: blanks become [+], unsafe bytes become [%XX]. *)
Fixpoint quote_plus (s : string) : string :=
  match s with
  | EmptyString => EmptyString
  | String c t =>
      if always_safe c then String c (quote_plus t)
      else if Ascii.eqb c " " then String "+" (quote_plus t)
      else
        let n := N_of_ascii c in
        String "%" (String (hex_digit (n / 16)) (String (hex_digit (n mod 16))
          (quote_plus t)))
  end.

Section Encode.
(** [str(x)] for a [float] *)
Variable float_str : Q -> string.

Definition str (v : pyval) : string :=
  match v with
  | VStr s => s
  | VInt n => PyStr.of_int n
  | VFloat x => float_str x
  end.

Definition urlencode (d : dict) : string :=
  String.concat "&"
    (map (fun kv => quote_plus (fst kv) +:+ "=" +:+ quote_plus (str (snd kv))) d).
End Encode.

End Url.

(** * Fetching and paginating *)

(** [sort_options.get(sort_by, 12)] *)
Definition sort_code (sort_by : string) : Z :=
  if String.eqb sort_by "best_match" then 12
  else if String.eqb sort_by "price_low" then 15
  else if String.eqb sort_by "price_high" then 16
  else if String.eqb sort_by "newest" then 10
  else 12.

(** [if x:] for a float [x] *)
Definition float_truthy (x : Q) : bool := negb (Qeq_bool x 0).

(** [if d:] for a dict or [None] *)
Definition product_truthy (p : option (gmap string string)) : bool :=
  match p with
  | Some d => negb (bool_decide (d = ∅))
  | None => false
  end.

Section Scraping.

(** The answer of the network to a request of [url]: a response, or the
    exception [requests] raises. *)
Variable session_get : string -> outcome Response.
(** The formatted time at which item [idx] of the page at [url] is read. *)
Variable clock : string -> nat -> string.
Variable float_str : Q -> string.

Variable self : EbayScraper.

Definition get (url : string) : io Response := ([Get url], session_get url).

(** [response.raise_for_status()] *)
Definition raise_for_status (response : Response) : io unit :=
  let status := status_code response in
  if (400 <=? status) && (status <? 600) then raise (HTTPError status)
  else mret tt.

(** The loop of [_scrape_page] over [enumerate(items)], from index [idx]. *)
Fixpoint extract_items (url : string) (items : list ListingNode) (idx : nat)
    (products : list (gmap string string)) : io (list (gmap string string)) :=
  match items with
  | [] => mret products
  | item :: rest =>
      product ← _extract_product_data self item (clock url idx);
      products ←
        (if product_truthy product then
           mret (products ++ option_list product)   (* products.append(product) *)
         else
           when (debug_mode self && (idx <? 3)%nat)
                (emit (PrintDebugFailedItem idx));;
           mret products);
      extract_items url rest (S idx) products
  end.

Definition _scrape_page (url : string) : io (list (gmap string string)) :=
  try_except
    (response ← get url;
     raise_for_status response;;
     let soup := soup response in
     let items := li_s_item soup in
     let items :=
       match items with
       | [] => div_s_item_wrapper soup
       | _ => items
       end in
     when (debug_mode self) (emit (PrintDebugContainers (length items)));;
     extract_items url items 0 [])
    (fun e =>
       if is_RequestException e then
         emit (PrintNetworkError e);;
         mret []
       else
         emit (PrintUnexpectedError e);;
         when (debug_mode self) (emit PrintTraceback);;
         mret []).

(** The diagnosis of an empty first page.  Writing the debug file is taken
    to succeed: a failing [open] or [write], which the [except] clause of the
    code would report, is not modelled. *)
Definition _diagnose_issue (url : string) : io unit :=
  try_except
    (response ← get url;
     emit (PrintStatus (status_code response) (String.length (content response)));;
     (if status_code response =? 403 then emit PrintForbidden
      else if status_code response =? 429 then emit PrintRateLimited
      else mret tt);;
     when (PyStr.contains "captcha" (PyStr.lower (resp_text response))
           || PyStr.contains "robot" (PyStr.lower (resp_text response)))
          (emit PrintCaptcha);;
     emit (WriteDebugFile (resp_text response));;
     emit PrintSavedResponse)
    (fun e => emit (PrintDiagnosisError e)).

(** The address of a page for the current [params]. *)
Definition build_url (params : Url.dict) : string :=
  base_url +:+ "?" +:+ Url.urlencode float_str params.

(** The [for page in range(1, max_pages + 1)] loop of [search], on the
    pages still to visit. *)
Fixpoint search_pages (params : Url.dict) (max_pages : Z) (pages : list Z)
    (all_products : list (gmap string string))
    : io (list (gmap string string)) :=
  match pages with
  | [] => mret all_products
  | page :: rest =>
      let params := Url.dict_set "_pgn" (Url.VInt page) params in
      let url := build_url params in
      when (debug_mode self) (emit (PrintDebugUrl url));;
      emit (PrintScraping page max_pages);;
      products ← _scrape_page url;
      let all_products := all_products ++ products in
      emit (PrintFound (length products));;
      if Nat.eqb (length products) 0 && (page =? 1) then
        emit PrintNoProductsWarning;;
        when (debug_mode self) (emit PrintDiagnosing;; _diagnose_issue url);;
        mret all_products
      else
        emit Sleep;;
        search_pages params max_pages rest all_products
  end.

(** The [params] dict before the loop. *)
Definition search_params (query : string) (sort_by : string)
    (min_price max_price : option Q) : Url.dict :=
  let params :=
    [("_nkw", Url.VStr query); ("_sop", Url.VInt (sort_code sort_by));
     ("_ipg", Url.VInt 60)] in
  let params :=
    match min_price with
    | Some x =>
        if float_truthy x then Url.dict_set "_udlo" (Url.VFloat x) params
        else params
    | None => params
    end in
  match max_price with
  | Some x =>
      if float_truthy x then Url.dict_set "_udhi" (Url.VFloat x) params
      else params
  | None => params
  end.

Definition search (query : string) (max_pages : Z) (sort_by : string)
    (min_price max_price : option Q) : io (list (gmap string string)) :=
  let params := search_params query sort_by min_price max_price in
  search_pages params max_pages (seqZ 1 max_pages) [].

(** The address [search] requests for page [page]. *)
Definition page_url (query : string) (sort_by : string)
    (min_price max_price : option Q) (page : Z) : string :=
  build_url (Url.dict_set "_pgn" (Url.VInt page)
               (search_params query sort_by min_price max_price)).

End Scraping.

(** * Post-processing *)

(** [product.get('condition', '')] and the like *)
Definition dict_get (product : gmap string string) (key default : string) : string :=
  match product !! key with
  | Some v => v
  | None => default
  end.

(** The test [filter_by_condition] applies to a product. *)
Definition condition_matches (condition : string) (product : gmap string string)
    : bool :=
  let prod_condition := PyStr.lower (dict_get product "condition" "") in
  PyStr.contains (PyStr.lower condition) prod_condition.

(** [filter_by_condition(products, condition)]; [condition] may be [None]. *)
Definition filter_by_condition (products : list (gmap string string))
    (condition : option string) : list (gmap string string) :=
  match condition with
  | None | Some EmptyString => products
  | Some condition =>
      fold_left
        (fun filtered product =>
           if condition_matches condition product then filtered ++ [product]
           else filtered)
        products []
  end.

Module Summary.

(** The currency signs and thousand separators are dropped. *)
Definition clean_price (price : string) : string :=
  PyStr.replace PyStr.euro ""
    (PyStr.replace PyStr.pound ""
       (PyStr.replace "," "" (PyStr.replace "$" "" price))).

(** The body of the [try] for one product: the price [float] returns, or
    [Fails] when it raises [ValueError], in which case the loop moves on. *)
Definition price_of (product : gmap string string) : PyFloat.reading :=
  let price_str := clean_price (dict_get product "price" "") in
  if PyStr.contains "to" price_str
  then PyFloat.parse (PyStr.strip (PyStr.split_head "to" price_str))
  else PyFloat.parse price_str.

(** The [prices] list after the loop; [None] when a price is not read. *)
Definition collect_prices (products : list (gmap string string))
    : option (list Q) :=
  fold_left
    (fun prices product =>
       prices ← prices;
       match price_of product with
       | PyFloat.Parsed price => Some (prices ++ [price])
       | PyFloat.Fails => Some prices
       | PyFloat.Unread => None
       end)
    products (Some []).

Definition Qltb (x y : Q) : bool := negb (Qle_bool y x).

(** [sum(xs)]: [None] when an addition would round. *)
Definition py_sum (xs : list Q) : option Q :=
  fold_left (fun total x => total ← total; PyFloat.double (total + x)) xs
    (Some 0%Q).

(** [min(xs)] and [max(xs)] keep the first of equal candidates. *)
Definition py_min (x : Q) (xs : list Q) : Q :=
  fold_left (fun m y => if Qltb y m then y else m) xs x.
Definition py_max (x : Q) (xs : list Q) : Q :=
  fold_left (fun m y => if Qltb m y then y else m) xs x.

(** Average, minimum and maximum of [prices]: [Some None] when [prices] is
    empty, [None] when a price is not read or a float operation would
    round. *)
Definition price_statistics (products : list (gmap string string))
    : option (option (Q * Q * Q)) :=
  prices ← collect_prices products;
  match prices with
  | [] => Some None
  | p :: ps =>
      let prices := p :: ps in
      total ← py_sum prices;
      avg ← PyFloat.double (total / inject_Z (Z.of_nat (length prices)));
      Some (Some (avg, py_min p ps, py_max p ps))
  end.

(** [display_summary]: the figures are printed with two decimals.  [None]
    when the figures are not determined ([price_statistics]). *)
Definition display_summary (self : EbayScraper)
    (products : list (gmap string string)) : option (io unit) :=
  if selected self "price" && negb (Nat.eqb (length products) 0) then
    figures ← price_statistics products;
    Some (emit (PrintTotal (length products));;
          match figures with
          | Some (avg, lo, hi) =>
              emit (PrintAverage avg);;
              emit (PrintRange lo hi)
          | None => mret tt
          end)
  else Some (emit (PrintTotal (length products))).

End Summary.

(** * Notions used to state the properties *)

(** The text the title chain of [_extract_product_data] locates. *)
Definition title_chain (item : ListingNode) : option string :=
  text <$> (find item SpanRoleHeading ||| find item DivItemTitle
              ||| find item H3ItemTitle).

(** The fields other than the title, in the order of the code. *)
Definition other_fields : list string :=
  ["price"; "condition"; "shipping"; "url"; "location"; "image_url";
   "sold_count"].

(** What the lookup of a field other than the title finds on a node, [None]
    when nothing matches. *)
Definition located (item : ListingNode) (name : string) : option string :=
  if String.eqb name "price" then text <$> find item SpanItemPrice
  else if String.eqb name "condition" then
    text <$> (find item SpanSecondaryInfo ||| find item SpanConditionText)
  else if String.eqb name "shipping" then
    text <$> (find item SpanItemShipping ||| find item SpanItemLogisticsCost)
  else if String.eqb name "url" then
    a ← find item AItemLink; attrs a !! "href"
  else if String.eqb name "location" then
    text <$> (find item SpanItemLocation ||| find item SpanItemItemLocation)
  else if String.eqb name "image_url" then
    img ← find item Img;
    match attrs img !! "src" with
    | Some v => Some v
    | None => attrs img !! "data-src"
    end
  else if String.eqb name "sold_count" then
    text <$> find item SpanItemQuantitySold
  else None.

(** The "not available" sentinel of the code. *)
Definition sentinel : string := "N/A".

(** The value stored for a field on which nothing is found. *)
Definition placeholder (name : string) : string :=
  if String.eqb name "sold_count" then "0" else sentinel.

(** [d[k] = v] under [if flag:] *)
Definition put (flag : bool) (k v : string) (d : gmap string string)
    : gmap string string :=
  if flag then <[k := v]> d else d.

(** The dict [fields_block] has built when it reaches its [return]. *)
Definition fields_product (self : EbayScraper) (item : ListingNode)
    (now : string) (product : gmap string string) : gmap string string :=
  let value name := default (placeholder name) (located item name) in
  put true "scraped_at" now
    (put (selected self "sold_count") "sold_count" (value "sold_count")
    (put (selected self "image_url") "image_url" (value "image_url")
    (put (selected self "location") "location" (value "location")
    (put (selected self "url") "url" (value "url")
    (put (selected self "shipping") "shipping" (value "shipping")
    (put (selected self "condition") "condition" (value "condition")
    (put (selected self "price") "price" (value "price") product))))))).

(** The dict after the title block, [None] when the block rejects the node. *)
Definition titled (self : EbayScraper) (item : ListingNode)
    : option (gmap string string) :=
  if selected self "title" then
    match title_chain item with
    | Some title =>
        if bool_decide (title ∈ rejected_titles) then None
        else Some (<["title" := title]> ∅)
    | None => None
    end
  else Some ∅.

(** The title rule lets the node through: the title is not asked for, or
    the chain locates a text outside the rejection list. *)
Definition title_accepted (self : EbayScraper) (item : ListingNode) : Prop :=
  selected self "title" = true ->
  exists title, title_chain item = Some title /\ title ∉ rejected_titles.

(** The addresses requested, in order. *)
Definition requests (tr : list event) : list string :=
  omap (fun e => match e with Get url => Some url | _ => None end) tr.

(** The pages the loop of [search] announced, one per iteration. *)
Definition pages_attempted (tr : list event) : list Z :=
  omap (fun e => match e with PrintScraping page _ => Some page | _ => None end) tr.

(** A fetch fails when the request raises or the status is 4xx or 5xx. *)
Definition fetch_failed (o : outcome Response) : bool :=
  match o with
  | Raises _ => true
  | Returns response =>
      (400 <=? status_code response) && (status_code response <? 600)
  end.

(** The value a computation returns, [d] when it raises. *)
Definition returned {A} (d : A) (m : io A) : A :=
  match result m with
  | Returns a => a
  | Raises _ => d
  end.

(** The records [_scrape_page] yields for [url]. *)
Definition scraped (session_get : string -> outcome Response)
    (clock : string -> nat -> string) (self : EbayScraper) (url : string)
    : list (gmap string string) :=
  returned [] (_scrape_page session_get clock self url).

(** The lines [_scrape_page] and the diagnosis print, and the debug file:
    all events but requests, pauses and the lines of the loop of [search]. *)
Definition is_log (e : event) : bool :=
  match e with
  | Get _ | Sleep | PrintDebugUrl _ | PrintScraping _ _ | PrintFound _
  | PrintNoProductsWarning | PrintDiagnosing => false
  | _ => true
  end.

(** The early stop of [search] is reported by its warning. *)
Definition early_stop_reported (tr : list event) : bool :=
  existsb (fun e => match e with PrintNoProductsWarning => true | _ => false end) tr.

(** The address of page [page] once [params] holds its number. *)
Definition url_for (float_str : Q -> string) (params : Url.dict) (page : Z)
    : string :=
  build_url float_str (Url.dict_set "_pgn" (Url.VInt page) params).

(** * Notions for the further properties *)

(** The field names the extraction knows. *)
Definition known_fields : list string := "title" :: other_fields.

(** What [_extract_product_data] returns. *)
Definition extraction (self : EbayScraper) (item : ListingNode) (now : string)
    : option (gmap string string) :=
  returned None (_extract_product_data self item now).

(** The first element of the title chain that is present. *)
Definition title_element (item : ListingNode) : option Tag :=
  match find item SpanRoleHeading with
  | Some e => Some e
  | None =>
      match find item DivItemTitle with
      | Some e => Some e
      | None => find item H3ItemTitle
      end
  end.

(** The listing nodes [_scrape_page] reads in a response. *)
Definition page_items (response : Response) : list ListingNode :=
  match li_s_item (soup response) with
  | [] => div_s_item_wrapper (soup response)
  | _ => li_s_item (soup response)
  end.

(** [enumerate(items)], counting from [idx]. *)
Definition enumerate_from {A} (idx : nat) (items : list A) : list (nat * A) :=
  zip (seq idx (length items)) items.

(** The accepted extractions of the nodes of a page, in document order. *)
Definition extractions (clock : string -> nat -> string) (self : EbayScraper)
    (url : string) (idx : nat) (items : list ListingNode)
    : list (gmap string string) :=
  omap (fun entry => extraction self (snd entry) (clock url (fst entry)))
       (enumerate_from idx items).

(** The number of pauses. *)
Definition pauses (tr : list event) : nat :=
  length (List.filter (fun e => match e with Sleep => true | _ => false end) tr).

(** The file the diagnosis writes, if any. *)
Definition debug_files (tr : list event) : list string :=
  omap (fun e => match e with WriteDebugFile text => Some text | _ => None end) tr.

(** The object [EbayScraper()] builds: no field selected, no debug. *)
Definition __init__ : EbayScraper :=
  {| selected_fields := []; debug_mode := false |}.

(** The part of the query string a price bound gives. *)
Definition bound_param (float_str : Q -> string) (key : string)
    (bound : option Q) : string :=
  match bound with
  | Some x =>
      if float_truthy x
      then "&" +:+ key +:+ "=" +:+ Url.quote_plus (float_str x)
      else ""
  | None => ""
  end.

(** Two characters that are equal, or the two cases of one of the letters
    A to Z. *)
Definition same_char_ignoring_case (a b : ascii) : bool :=
  let x := N_of_ascii a in
  let y := N_of_ascii b in
  ((x =? y)
   || ((65 <=? x) && (x <=? 90) && (y =? x + 32))
   || ((65 <=? y) && (y <=? 90) && (x =? y + 32)))%N.

(** Two texts that differ at most in the case of their letters A to Z. *)
Fixpoint same_ignoring_case (s t : string) : bool :=
  match s, t with
  | EmptyString, EmptyString => true
  | String a s, String b t =>
      same_char_ignoring_case a b && same_ignoring_case s t
  | _, _ => false
  end.

(** The 256 characters of a [string]. *)
Definition all_ascii : list ascii := map ascii_of_nat (seq 0 256).

(** The price a reading gives, if it gives one. *)
Definition reading_value (r : PyFloat.reading) : option Q :=
  match r with
  | PyFloat.Parsed price => Some price
  | _ => None
  end.

Definition is_read (r : PyFloat.reading) : bool :=
  match r with
  | PyFloat.Unread => false
  | _ => true
  end.

(** The prices of the products whose price parses, in order. *)
Definition parsed_prices (products : list (gmap string string)) : list Q :=
  omap (fun product => reading_value (Summary.price_of product)) products.

(** Every price is read: it parses to a double without rounding, or
    [float] raises [ValueError] on it. *)
Definition all_read (products : list (gmap string string)) : bool :=
  forallb (fun product => is_read (Summary.price_of product)) products.

(** The number a decimal numeral denotes after the digits read so far. *)
Fixpoint uint_value (d : Decimal.uint) (acc : Z) : Z :=
  match d with
  | Decimal.Nil => acc
  | Decimal.D0 d => uint_value d (acc * 10)
  | Decimal.D1 d => uint_value d (acc * 10 + 1)
  | Decimal.D2 d => uint_value d (acc * 10 + 2)
  | Decimal.D3 d => uint_value d (acc * 10 + 3)
  | Decimal.D4 d => uint_value d (acc * 10 + 4)
  | Decimal.D5 d => uint_value d (acc * 10 + 5)
  | Decimal.D6 d => uint_value d (acc * 10 + 6)
  | Decimal.D7 d => uint_value d (acc * 10 + 7)
  | Decimal.D8 d => uint_value d (acc * 10 + 8)
  | Decimal.D9 d => uint_value d (acc * 10 + 9)
  end.

(** * Sample inputs *)

Definition sample_time : string := "2024-05-01 12:00:00".

Definition price_only : EbayScraper :=
  {| selected_fields := ["price"]; debug_mode := false |}.
Definition sold_count_only : EbayScraper :=
  {| selected_fields := ["sold_count"]; debug_mode := false |}.
Definition title_and_price : EbayScraper :=
  {| selected_fields := ["title"; "price"]; debug_mode := false |}.
Definition title_and_shipping : EbayScraper :=
  {| selected_fields := ["title"; "shipping"]; debug_mode := true |}.

Definition plain_tag (s : string) : Tag := {| text := s; attrs := ∅ |}.

(** A node on which no query finds anything. *)
Definition empty_node : ListingNode := fun _ => None.

(** A node whose heading is the promotional banner and that has a price. *)
Definition banner_node : ListingNode := fun sel =>
  match sel with
  | SpanRoleHeading => Some (plain_tag "Shop on eBay")
  | SpanItemPrice => Some (plain_tag "$20.00")
  | _ => None
  end.

(** A node with a title in the alternative markup and nothing else. *)
Definition laptop_node : ListingNode := fun sel =>
  match sel with
  | DivItemTitle => Some (plain_tag "Laptop")
  | _ => None
  end.

Definition title_only : EbayScraper :=
  {| selected_fields := ["title"]; debug_mode := false |}.

(** A page with one listing, a page without listings, and the answer of a
    server that limits the rate. *)
Definition listing_page : Response :=
  {| status_code := 200; content := "<html>"; resp_text := "<html>";
     soup := {| li_s_item := [laptop_node]; div_s_item_wrapper := [] |} |}.
Definition empty_page : Response :=
  {| status_code := 200; content := "<html>"; resp_text := "<html>";
     soup := {| li_s_item := []; div_s_item_wrapper := [] |} |}.
Definition rate_limited_page : Response :=
  {| status_code := 429; content := ""; resp_text := "";
     soup := {| li_s_item := []; div_s_item_wrapper := [] |} |}.

(** Networks: every page has a listing, but page 2 is refused with status
    429, or is empty; and a network whose pages are all empty. *)
Definition network_blocking_page_2 (url : string) : outcome Response :=
  if PyStr.contains "_pgn=2" url then Returns rate_limited_page
  else Returns listing_page.
Definition network_empty_page_2 (url : string) : outcome Response :=
  if PyStr.contains "_pgn=2" url then Returns empty_page
  else Returns listing_page.
Definition network_without_listings (url : string) : outcome Response :=
  Returns empty_page.

Definition sample_clock (url : string) (idx : nat) : string := sample_time.

(** A clock that tells the turn of the node, and a page with two listings. *)
Definition turn_clock (url : string) (idx : nat) : string :=
  "turn " +:+ PyStr.of_int (Z.of_nat idx).
Definition two_listings_page : Response :=
  {| status_code := 200; content := "<html>"; resp_text := "<html>";
     soup := {| li_s_item := [empty_node; laptop_node];
                div_s_item_wrapper := [] |} |}.

(** [str(x)] for a float [x] that is a whole number. *)
Definition whole_float_str (x : Q) : string := PyStr.of_int (Qnum x) +:+ ".0".

(** A node whose heading is empty while the alternative markup has a title. *)
Definition empty_heading_node : ListingNode := fun sel =>
  match sel with
  | SpanRoleHeading => Some (plain_tag "")
  | DivItemTitle => Some (plain_tag "Laptop")
  | _ => None
  end.

(** * Python text and numerals, on examples *)

Example lower_example : PyStr.lower "Pre-Owned" = "pre-owned".
Proof. reflexivity. Qed.

Example contains_example :
  PyStr.contains "to" "10.00 to 20.00" = true /\
  PyStr.contains "to" "not available" = false.
Proof. split; reflexivity. Qed.

Example float_examples :
  PyFloat.parse "10.00" = PyFloat.Parsed 10 /\
  PyFloat.parse " 1299.5 " = PyFloat.Parsed (2599 # 2) /\
  PyFloat.parse "1_000" = PyFloat.Parsed 1000 /\
  PyFloat.parse "2.5e3" = PyFloat.Parsed 2500 /\
  PyFloat.parse "7." = PyFloat.Parsed 7 /\
  PyFloat.parse ".5" = PyFloat.Parsed (1 # 2) /\
  PyFloat.parse "-12.25" = PyFloat.Parsed (- 49 # 4) /\
  PyFloat.parse "N/A" = PyFloat.Fails /\
  PyFloat.parse "not available" = PyFloat.Fails /\
  PyFloat.parse "." = PyFloat.Fails /\
  PyFloat.parse "1__0" = PyFloat.Fails /\
  PyFloat.parse "infin" = PyFloat.Fails /\
  PyFloat.parse (String "028" "10") = PyFloat.Fails /\
  PyFloat.parse "" = PyFloat.Fails.
Proof. repeat split; reflexivity. Qed.

(** Texts of which the model says nothing: a numeral that is rounded, the
    non-finite floats, negative zero, and a blank outside ASCII (U+00A0). *)
Example float_unread_examples :
  PyFloat.parse "19.99" = PyFloat.Unread /\
  PyFloat.parse "inf" = PyFloat.Unread /\
  PyFloat.parse "-Infinity" = PyFloat.Unread /\
  PyFloat.parse "NaN" = PyFloat.Unread /\
  PyFloat.parse "-0.0" = PyFloat.Unread /\
  PyFloat.parse "1e400" = PyFloat.Unread /\
  PyFloat.parse (String "194" (String "160" "10")) = PyFloat.Unread.
Proof. repeat split; reflexivity. Qed.

(** * Properties of the computations *)

Lemma result_ret {A} (a : A) : result (mret a : io A) = Returns a.
Proof. reflexivity. Qed.

Lemma result_bind {A B} (m : io A) (f : A -> io B) :
  result (m ≫= f) =
  match result m with
  | Returns a => result (f a)
  | Raises e => Raises e
  end.
Proof.
  destruct m as [tr [a|e]]; simpl; [|reflexivity].
  unfold mbind, io_mbind, io_bind. destruct (f a); reflexivity.
Qed.

Lemma trace_bind {A B} (m : io A) (f : A -> io B) :
  trace (m ≫= f) =
  trace m ++ match result m with
             | Returns a => trace (f a)
             | Raises _ => []
             end.
Proof.
  destruct m as [tr [a|e]]; simpl.
  - unfold mbind, io_mbind, io_bind. destruct (f a); reflexivity.
  - unfold mbind, io_mbind, io_bind. simpl. by rewrite app_nil_r.
Qed.

Lemma result_try_except {A} (body : io A) (handler : exn -> io A) :
  result (try_except body handler) =
  match result body with
  | Returns a => Returns a
  | Raises e => result (handler e)
  end.
Proof.
  destruct body as [tr [a|e]]; simpl; [reflexivity|].
  destruct (handler e); reflexivity.
Qed.

Lemma trace_try_except {A} (body : io A) (handler : exn -> io A) :
  trace (try_except body handler) =
  trace body ++ match result body with
                | Returns _ => []
                | Raises e => trace (handler e)
                end.
Proof.
  destruct body as [tr [a|e]]; simpl; [by rewrite app_nil_r|].
  destruct (handler e); reflexivity.
Qed.

Lemma result_when (flag : bool) (m : io unit) :
  (exists u, result m = Returns u) -> result (when flag m) = Returns tt.
Proof. intros [[] Hu]. destruct flag; simpl; [exact Hu | reflexivity]. Qed.

Lemma result_emit (e : event) : result (emit e) = Returns tt.
Proof. reflexivity. Qed.

(** * Properties of [_extract_product_data] *)

Lemma lookup_put_ne flag k v d k' :
  k ≠ k' -> put flag k v d !! k' = d !! k'.
Proof. intros Hne. destruct flag; simpl; [by rewrite lookup_insert_ne | done]. Qed.

Lemma lookup_put_eq flag k v d :
  put flag k v d !! k = if flag then Some v else d !! k.
Proof. destruct flag; simpl; [by rewrite lookup_insert_eq | done]. Qed.

(** Looks a key up through the [put]s of [fields_product]. *)
Ltac lookup_put :=
  repeat (rewrite lookup_put_ne by discriminate);
  try rewrite lookup_put_eq.

Lemma or_else_text (a b : option Tag) (d : string) :
  text_or (a ||| b) d = default d (text <$> (a ||| b)).
Proof. by destruct a, b. Qed.

Lemma text_or_default (a : option Tag) (d : string) :
  text_or a d = default d (text <$> a).
Proof. by destruct a. Qed.

(** The blocks after the title raise nothing, print nothing and return the
    dict of [fields_product], unless it holds the time stamp only. *)
Lemma fields_block_spec self item now product :
  fields_block self item now product =
  ([], Returns (let p := fields_product self item now product in
                if (1 <? size p)%nat then Some p else None)).
Proof.
  unfold fields_block, fields_product, put, located, placeholder, sentinel.
  simpl String.eqb.
  rewrite !or_else_text, !text_or_default.
  unfold find, getitem.
  destruct (selected self "url"); simpl;
    [destruct (item AItemLink) as [a|]; simpl;
       [destruct (attrs a !! "href"); simpl|]|];
    (destruct (item Img) as [img|]; simpl;
       [destruct (attrs img !! "src")|]; reflexivity).
Qed.

Lemma title_block_result self item :
  result (title_block self item ∅) = Returns (titled self item).
Proof.
  unfold title_block, titled, title_chain.
  destruct (selected self "title"); [|reflexivity].
  destruct (find item SpanRoleHeading ||| find item DivItemTitle
              ||| find item H3ItemTitle) as [elem|]; simpl.
  - destruct (bool_decide (text elem ∈ rejected_titles)); reflexivity.
  - rewrite result_bind, result_when by (eexists; apply result_emit).
    reflexivity.
Qed.

(** What [_extract_product_data] returns, without the plumbing. *)
Lemma extract_result self item now :
  result (_extract_product_data self item now) =
  Returns (match titled self item with
           | None => None
           | Some product =>
               let p := fields_product self item now product in
               if (1 <? size p)%nat then Some p else None
           end).
Proof.
  unfold _extract_product_data.
  rewrite result_try_except, result_bind, title_block_result.
  destruct (titled self item) as [product|]; [|reflexivity].
  by rewrite fields_block_spec.
Qed.

Lemma titled_accepted self item :
  title_accepted self item ->
  exists product,
    titled self item = Some product /\
    forall name, name ≠ "title" -> product !! name = None.
Proof.
  unfold title_accepted, titled. intros Hacc.
  destruct (selected self "title").
  - destruct Hacc as (title & -> & Hnot); [reflexivity|].
    rewrite bool_decide_eq_false_2 by done.
    eexists; split; [reflexivity|].
    intros name Hne. by rewrite lookup_insert_ne.
  - eexists; split; [reflexivity|]. intros name _. apply lookup_empty.
Qed.

Lemma titled_title self item product :
  titled self item = Some product ->
  if selected self "title" then
    exists title, title_chain item = Some title /\ (title ∉ rejected_titles) /\
                  product !! "title" = Some title
  else product !! "title" = None.
Proof.
  unfold titled. destruct (selected self "title").
  - destruct (title_chain item) as [title|]; [|discriminate].
    case_bool_decide; [discriminate|]. intros [= <-].
    exists title. by rewrite lookup_insert_eq.
  - intros [= <-]. apply lookup_empty.
Qed.

Lemma size_two (m : gmap string string) (k1 k2 : string) :
  k1 ≠ k2 -> is_Some (m !! k1) -> is_Some (m !! k2) -> (1 < size m)%nat.
Proof.
  intros Hne H1 H2.
  assert (size (delete k1 m) ≠ 0%nat) as Hd.
  { apply map_size_ne_0_lookup_2 with k2. by rewrite lookup_delete_ne. }
  rewrite map_size_delete_Some in Hd by done. lia.
Qed.

Lemma size_other_key (m : gmap string string) (k0 : string) :
  (1 < size m)%nat -> exists k, k ≠ k0 /\ is_Some (m !! k).
Proof.
  intros Hsize.
  assert (size (delete k0 m) ≠ 0%nat) as Hd.
  { rewrite map_size_delete. destruct (m !! k0); simpl; lia. }
  apply map_size_ne_0_lookup_1 in Hd as [k Hk].
  exists k. destruct (decide (k = k0)) as [->|Hne].
  - rewrite lookup_delete_eq in Hk. by destruct Hk.
  - split; [done|]. by rewrite lookup_delete_ne in Hk.
Qed.

Lemma fields_product_scraped_at self item now product :
  fields_product self item now product !! "scraped_at" = Some now.
Proof. unfold fields_product. by rewrite lookup_put_eq. Qed.

Lemma fields_product_title self item now product :
  fields_product self item now product !! "title" = product !! "title".
Proof. unfold fields_product. by lookup_put. Qed.

(** A requested field other than the title is always in the dict, with
    the located text or else its placeholder. *)
Lemma fields_product_other self item now product name :
  name ∈ other_fields ->
  selected self name = true ->
  fields_product self item now product !! name =
  Some (default (placeholder name) (located item name)).
Proof.
  unfold other_fields. rewrite !elem_of_cons, elem_of_nil.
  intros Hname Hsel. unfold fields_product.
  destruct Hname as [->|[->|[->|[->|[->|[->|[->|[]]]]]]]];
    lookup_put; by rewrite Hsel.
Qed.

Lemma other_fields_not_scraped_at name :
  name ∈ other_fields -> name ≠ "scraped_at".
Proof.
  unfold other_fields. rewrite !elem_of_cons, elem_of_nil.
  intros [->|[->|[->|[->|[->|[->|[->|[]]]]]]]]; discriminate.
Qed.

(** C4 (as the code has it): [_extract_product_data] never raises.  It
    returns nothing or a dict with more than one entry: the time stamp and at
    least one other field.  When the title is among the selected fields the
    dict holds the located title, which is outside the rejection list; when
    the title is not selected the dict has no title at all. *)
Theorem extract_never_raises_and_record_valid self item now :
  exists r,
    result (_extract_product_data self item now) = Returns r /\
    forall p, r = Some p ->
      (1 < size p)%nat /\
      p !! "scraped_at" = Some now /\
      (exists k, k ≠ "scraped_at" /\ is_Some (p !! k)) /\
      if selected self "title" then
        exists title, title_chain item = Some title /\
                      (title ∉ rejected_titles) /\ p !! "title" = Some title
      else p !! "title" = None.
Proof.
  eexists; split; [apply extract_result|].
  intros p Hp.
  destruct (titled self item) as [product|] eqn:Htitled; [|discriminate].
  simpl in Hp.
  destruct (1 <? size (fields_product self item now product))%nat eqn:Hsize;
    [|discriminate].
  injection Hp as <-. apply Nat.ltb_lt in Hsize.
  split; [exact Hsize|].
  split; [apply fields_product_scraped_at|].
  split; [by apply size_other_key|].
  rewrite fields_product_title. by apply titled_title.
Qed.

(** C4, counterexample to the claim as stated: with only the price
    selected, a record is returned that holds no title. *)
Lemma extract_record_without_title :
  result (_extract_product_data price_only empty_node sample_time)
    = Returns (Some (<["scraped_at" := sample_time]> (<["price" := "N/A"]> ∅))) /\
  (<["scraped_at" := sample_time]> (<["price" := "N/A"]> ∅)
     : gmap string string) !! "title" = None /\
  ~ (exists p title,
       result (_extract_product_data price_only empty_node sample_time)
         = Returns (Some p) /\
       p !! "title" = Some title).
Proof.
  assert (result (_extract_product_data price_only empty_node sample_time)
          = Returns (Some (<["scraped_at" := sample_time]>
                             (<["price" := "N/A"]> ∅)))) as Hres
    by (vm_compute; reflexivity).
  split; [exact Hres|].
  split; [by rewrite !lookup_insert_ne by discriminate|].
  intros (p & title & Hp & Ht). rewrite Hres in Hp.
  assert (p = <["scraped_at" := sample_time]> (<["price" := "N/A"]> ∅))
    as -> by congruence.
  rewrite !lookup_insert_ne in Ht by discriminate.
  by rewrite lookup_empty in Ht.
Qed.

(** C5 (as the code has it): when the title is among the selected fields, a
    node on which the title chain locates nothing, or a text of the
    rejection list, yields nothing, whatever else the node holds. *)
Theorem rejected_title_yields_nothing self item now :
  selected self "title" = true ->
  (title_chain item = None \/
   exists title, title_chain item = Some title /\ title ∈ rejected_titles) ->
  result (_extract_product_data self item now) = Returns None.
Proof.
  intros Hsel Hchain. rewrite extract_result.
  unfold titled. rewrite Hsel.
  destruct Hchain as [-> | (title & -> & Hrej)]; [reflexivity|].
  by rewrite bool_decide_eq_true_2.
Qed.

Lemma rejected_title_yields_nothing_witness :
  result (_extract_product_data title_and_price banner_node sample_time)
    = Returns None.
Proof.
  apply rejected_title_yields_nothing.
  - vm_compute; reflexivity.
  - right. exists "Shop on eBay". split; [reflexivity|].
    unfold rejected_titles. apply elem_of_cons. by left.
Defined.

(** C5, counterexample to the claim as stated: the same node yields a record
    when the title is not among the selected fields. *)
Lemma rejected_title_not_selected_yields_record :
  title_chain banner_node = Some "Shop on eBay" /\
  "Shop on eBay" ∈ rejected_titles /\
  result (_extract_product_data price_only banner_node sample_time)
    = Returns (Some (<["scraped_at" := sample_time]>
                       (<["price" := "$20.00"]> ∅))) /\
  result (_extract_product_data price_only banner_node sample_time)
    ≠ Returns None.
Proof.
  assert (result (_extract_product_data price_only banner_node sample_time)
          = Returns (Some (<["scraped_at" := sample_time]>
                             (<["price" := "$20.00"]> ∅)))) as Hres
    by (vm_compute; reflexivity).
  split; [reflexivity|].
  split; [unfold rejected_titles; apply elem_of_cons; by left|].
  split; [exact Hres|].
  rewrite Hres. discriminate.
Qed.

(** C8 (as the code has it): a selected field other than the title on which
    nothing is located never rejects the record; unless the title rule
    rejects the node, the record holds the placeholder of that field, which
    is "N/A" for price, condition, shipping, url, location and image_url and
    "0" for sold_count. *)
Theorem missing_field_gets_placeholder self item now name :
  name ∈ other_fields ->
  selected self name = true ->
  located item name = None ->
  title_accepted self item ->
  (exists p,
     result (_extract_product_data self item now) = Returns (Some p) /\
     p !! name = Some (placeholder name)) /\
  placeholder name = (if String.eqb name "sold_count" then "0" else "N/A").
Proof.
  intros Hname Hsel Hloc Hacc. split; [|reflexivity].
  destruct (titled_accepted _ _ Hacc) as (product & Htitled & _).
  rewrite extract_result, Htitled. simpl.
  assert (fields_product self item now product !! name
          = Some (placeholder name)) as Hlook.
  { rewrite fields_product_other, Hloc by done. reflexivity. }
  rewrite (proj2 (Nat.ltb_lt _ _)).
  - eexists; split; [reflexivity | exact Hlook].
  - apply size_two with name "scraped_at".
    + by apply other_fields_not_scraped_at.
    + by rewrite Hlook.
    + by rewrite fields_product_scraped_at.
Qed.

Lemma missing_field_gets_placeholder_witness :
  (exists p,
     result (_extract_product_data title_and_shipping laptop_node sample_time)
       = Returns (Some p) /\
     p !! "shipping" = Some "N/A") /\
  placeholder "shipping" = "N/A".
Proof.
  apply (missing_field_gets_placeholder
           title_and_shipping laptop_node sample_time "shipping").
  - unfold other_fields. rewrite !elem_of_cons. tauto.
  - vm_compute; reflexivity.
  - reflexivity.
  - intros _. exists "Laptop". split; [reflexivity|].
    unfold rejected_titles. rewrite !elem_of_cons, elem_of_nil.
    intros [H|[H|[H|[]]]]; discriminate.
Defined.

(** C8, counterexample to the claim as stated: for the sold count on which
    nothing is located the record holds "0", not the "N/A" sentinel. *)
Lemma sold_count_placeholder_is_not_sentinel :
  located empty_node "sold_count" = None /\
  result (_extract_product_data sold_count_only empty_node sample_time)
    = Returns (Some (<["scraped_at" := sample_time]>
                       (<["sold_count" := "0"]> ∅))) /\
  ~ (exists p,
       result (_extract_product_data sold_count_only empty_node sample_time)
         = Returns (Some p) /\
       p !! "sold_count" = Some sentinel).
Proof.
  assert (result (_extract_product_data sold_count_only empty_node sample_time)
          = Returns (Some (<["scraped_at" := sample_time]>
                             (<["sold_count" := "0"]> ∅)))) as Hres
    by (vm_compute; reflexivity).
  split; [reflexivity|].
  split; [exact Hres|].
  intros (p & Hp & Hlook). rewrite Hres in Hp.
  assert (p = <["scraped_at" := sample_time]> (<["sold_count" := "0"]> ∅))
    as -> by congruence.
  rewrite lookup_insert_ne, lookup_insert_eq in Hlook by discriminate.
  discriminate Hlook.
Qed.

(** * Properties of [_scrape_page] and [search] *)

Lemma dict_set_set k v v' d :
  Url.dict_set k v (Url.dict_set k v' d) = Url.dict_set k v d.
Proof.
  induction d as [|[k' w] d IH]; simpl.
  - by rewrite String.eqb_refl.
  - destruct (String.eqb k k') eqn:Hk; simpl.
    + by rewrite String.eqb_refl.
    + by rewrite Hk, IH.
Qed.

Lemma requests_app tr1 tr2 : requests (tr1 ++ tr2) = requests tr1 ++ requests tr2.
Proof. apply omap_app. Qed.

Lemma pages_attempted_app tr1 tr2 :
  pages_attempted (tr1 ++ tr2) = pages_attempted tr1 ++ pages_attempted tr2.
Proof. apply omap_app. Qed.

Lemma requests_log tr : Forall (fun e => is_log e = true) tr -> requests tr = [].
Proof.
  induction 1 as [|e tr He _ IH]; [reflexivity|].
  destruct e; try discriminate; exact IH.
Qed.

Lemma pages_attempted_log tr :
  Forall (fun e => is_log e = true) tr -> pages_attempted tr = [].
Proof.
  induction 1 as [|e tr He _ IH]; [reflexivity|].
  destruct e; try discriminate; exact IH.
Qed.

Lemma early_stop_reported_app tr1 tr2 :
  early_stop_reported (tr1 ++ tr2)
  = early_stop_reported tr1 || early_stop_reported tr2.
Proof. apply existsb_app. Qed.

Lemma early_stop_reported_log tr :
  Forall (fun e => is_log e = true) tr -> early_stop_reported tr = false.
Proof.
  induction 1 as [|e tr He _ IH]; [reflexivity|].
  destruct e; try discriminate; exact IH.
Qed.

(** Splits a computation into its events and its outcome. *)
Lemma io_eta {A} (m : io A) : m = (trace m, result m).
Proof. by destruct m. Qed.

Ltac io_unfold :=
  unfold mbind, io_mbind, io_bind, mret, io_mret, io_ret, emit, raise, when,
    try_except.

Section SearchFacts.

Variable session_get : string -> outcome Response.
Variable clock : string -> nat -> string.
Variable float_str : Q -> string.
Variable self : EbayScraper.

Abbreviation items_loop := (extract_items clock self).
Abbreviation scrape := (_scrape_page session_get clock self).
Abbreviation diagnose := (_diagnose_issue session_get).
Abbreviation records := (scraped session_get clock self).
Abbreviation pages_loop := (search_pages session_get clock float_str self).
Abbreviation run := (search session_get clock float_str self).

Lemma extract_log item now :
  Forall (fun e => is_log e = true) (trace (_extract_product_data self item now)).
Proof.
  unfold _extract_product_data.
  rewrite trace_try_except, result_bind, trace_bind, title_block_result.
  assert (Forall (fun e => is_log e = true) (trace (title_block self item ∅)))
    as Htitle.
  { unfold title_block. destruct (selected self "title"); [|constructor].
    destruct (_ ||| _); simpl.
    - destruct (bool_decide _); constructor.
    - destruct (debug_mode self); repeat constructor. }
  destruct (titled self item) as [product|]; simpl.
  - rewrite fields_block_spec. simpl. by rewrite !app_nil_r.
  - by rewrite !app_nil_r.
Qed.

Lemma extract_items_shape url items idx products :
  exists log l,
    items_loop url items idx products = (log, Returns l) /\
    Forall (fun e => is_log e = true) log.
Proof.
  revert idx products.
  induction items as [|item rest IH]; intros idx products; simpl.
  - exists [], products. by split.
  - rewrite (io_eta (_extract_product_data _ _ _)), extract_result.
    pose proof (extract_log item (clock url idx)) as Hlog.
    set (r := match titled self item with None => None | Some _ => _ end).
    do 2 io_unfold. simpl.
    destruct (product_truthy r); simpl.
    + destruct (IH (S idx) (products ++ option_list r)) as (log & l & -> & Hl).
      eexists _, l. split; [reflexivity|]. by apply Forall_app.
    + destruct (debug_mode self && (idx <? 3)%nat); simpl;
        destruct (IH (S idx) products) as (log & l & -> & Hl);
        (eexists _, l; split; [reflexivity|]);
        apply Forall_app; split; try done; by repeat constructor.
Qed.

(** [_scrape_page] requests [url] once, never raises, and besides the
    request only prints. *)
Lemma scrape_page_shape url :
  exists log,
    scrape url = (Get url :: log, Returns (records url)) /\
    Forall (fun e => is_log e = true) log.
Proof.
  unfold scraped, returned, _scrape_page, get.
  destruct (session_get url) as [response|e]; simpl.
  - unfold raise_for_status.
    destruct ((400 <=? status_code response) && (status_code response <? 600));
      simpl.
    + eexists; split; [reflexivity|]. repeat constructor.
    + match goal with
      | |- context [extract_items _ _ ?u ?items 0%nat []] =>
          destruct (extract_items_shape u items 0%nat []) as (log & l & -> & Hl)
      end.
      io_unfold.
      destruct (debug_mode self); simpl;
        (eexists; split; [reflexivity|]); [constructor; [done|]|];
        by rewrite ?app_nil_r.
  - destruct (is_RequestException e); io_unfold; simpl.
    + eexists; split; [reflexivity|]. repeat constructor.
    + destruct (debug_mode self); simpl;
        (eexists; split; [reflexivity|]); repeat constructor.
Qed.

Lemma fetch_failed_scraped url :
  fetch_failed (session_get url) = true -> records url = [].
Proof.
  unfold scraped, returned, _scrape_page, get, fetch_failed.
  destruct (session_get url) as [response|e]; simpl.
  - unfold raise_for_status. intros ->. reflexivity.
  - intros _. destruct (is_RequestException e); [reflexivity|].
    io_unfold. by destruct (debug_mode self).
Qed.

Lemma diagnose_shape url :
  exists log,
    diagnose url = (Get url :: log, Returns tt) /\
    Forall (fun e => is_log e = true) log.
Proof.
  unfold _diagnose_issue, get.
  destruct (session_get url) as [response|e]; do 2 io_unfold; simpl.
  - destruct (status_code response =? 403);
      [|destruct (status_code response =? 429)];
      destruct (_ || _); simpl;
      (eexists; split; [reflexivity|]); by repeat constructor.
  - eexists; split; [reflexivity|]. by repeat constructor.
Qed.

(** The projections of the events of one iteration of the loop. *)
Ltac project_trace :=
  rewrite ?requests_app, ?pages_attempted_app, ?early_stop_reported_app;
  simpl;
  rewrite ?requests_app, ?pages_attempted_app, ?early_stop_reported_app;
  simpl.

(** The loop stops at page 1 when that page yields no record. *)
Lemma search_pages_stop params max_pages rest acc :
  records (url_for float_str params 1) = [] ->
  exists tr,
    pages_loop params max_pages (1 :: rest) acc = (tr, Returns acc) /\
    requests tr =
      url_for float_str params 1 ::
        (if debug_mode self then [url_for float_str params 1] else []) /\
    pages_attempted tr = [1] /\
    early_stop_reported tr = true.
Proof.
  intros Hempty. simpl. fold (url_for float_str params 1).
  destruct (scrape_page_shape (url_for float_str params 1)) as (log & -> & Hlog).
  destruct (diagnose_shape (url_for float_str params 1)) as (dlog & -> & Hdlog).
  rewrite Hempty. do 2 io_unfold. simpl.
  destruct (debug_mode self); simpl;
    (eexists; split; [by rewrite ?app_nil_r|]);
    project_trace;
    rewrite ?(requests_log log), ?(pages_attempted_log log),
      ?(early_stop_reported_log log), ?(requests_log dlog),
      ?(pages_attempted_log dlog) by done;
    simpl; by rewrite ?orb_true_r.
Qed.

(** The loop visits every page when none of them is an empty page 1. *)
Lemma search_pages_through params max_pages pages acc :
  Forall (fun p => p = 1 -> records (url_for float_str params p) ≠ []) pages ->
  exists tr,
    pages_loop params max_pages pages acc =
      (tr, Returns (acc ++ concat (map (fun p => records (url_for float_str params p))
                                       pages))) /\
    requests tr = map (url_for float_str params) pages /\
    pages_attempted tr = pages /\
    early_stop_reported tr = false.
Proof.
  revert params acc.
  induction pages as [|page rest IH]; intros params acc Hpages.
  - exists []. simpl. by rewrite app_nil_r.
  - apply Forall_cons in Hpages as [Hpage Hrest].
    simpl. fold (url_for float_str params page).
    destruct (scrape_page_shape (url_for float_str params page))
      as (log & -> & Hlog).
    do 2 io_unfold. simpl.
    assert (Nat.eqb (length (records (url_for float_str params page))) 0
            && (page =? 1) = false) as ->.
    { destruct (page =? 1) eqn:Hone; [|apply andb_false_r].
      apply Z.eqb_eq in Hone. specialize (Hpage Hone).
      destruct (records _); [done|reflexivity]. }
    assert (forall p,
              url_for float_str (Url.dict_set "_pgn" (Url.VInt page) params) p
              = url_for float_str params p) as Hurl
      by (intros p; unfold url_for; by rewrite dict_set_set).
    destruct (IH (Url.dict_set "_pgn" (Url.VInt page) params)
                 (acc ++ records (url_for float_str params page)))
      as (tr & Heq & Hreq & Hatt & Hstop).
    { eapply Forall_impl; [exact Hrest|]. intros p Hp. by rewrite Hurl. }
    rewrite (map_ext _ (fun p => records (url_for float_str params p))) in Heq
      by (intros p; by rewrite Hurl).
    rewrite (map_ext _ (url_for float_str params)) in Hreq by exact Hurl.
    rewrite Heq.
    destruct (debug_mode self); simpl;
      (eexists; split; [by rewrite <- app_assoc|]);
      project_trace;
      rewrite ?(requests_log log), ?(pages_attempted_log log),
        ?(early_stop_reported_log log) by done;
      simpl; by rewrite Hreq, Hatt, Hstop.
Qed.

Lemma search_through query max_pages sort_by min_price max_price :
  (1 <= max_pages ->
   records (page_url float_str query sort_by min_price max_price 1) ≠ []) ->
  exists tr,
    run query max_pages sort_by min_price max_price =
      (tr, Returns (concat (map (fun p => records (page_url float_str query sort_by
                                                     min_price max_price p))
                                (seqZ 1 max_pages)))) /\
    requests tr = map (page_url float_str query sort_by min_price max_price)
                      (seqZ 1 max_pages) /\
    pages_attempted tr = seqZ 1 max_pages /\
    early_stop_reported tr = false.
Proof.
  intros Hfirst. unfold search.
  apply (search_pages_through
           (search_params query sort_by min_price max_price) max_pages
           (seqZ 1 max_pages) []).
  apply Forall_seqZ. intros p Hp ->. apply Hfirst. lia.
Qed.

(** C2: when page 1 yields no record, whether its fetch failed or no node
    gave a record, the loop attempts page 1 only, whatever [max_pages],
    and reports the early stop by its warning; the addresses requested are
    the one of page 1, once more for the diagnosis in debug mode. *)
Theorem first_page_without_records_stops
    query max_pages sort_by min_price max_price :
  1 <= max_pages ->
  records (page_url float_str query sort_by min_price max_price 1) = [] ->
  pages_attempted (trace (run query max_pages sort_by min_price max_price))
    = [1] /\
  early_stop_reported (trace (run query max_pages sort_by min_price max_price))
    = true /\
  requests (trace (run query max_pages sort_by min_price max_price))
    = page_url float_str query sort_by min_price max_price 1 ::
        (if debug_mode self
         then [page_url float_str query sort_by min_price max_price 1]
         else []) /\
  result (run query max_pages sort_by min_price max_price) = Returns [].
Proof.
  intros Hmax Hempty. unfold search.
  rewrite seqZ_cons by lia.
  destruct (search_pages_stop
              (search_params query sort_by min_price max_price) max_pages
              (seqZ (Z.succ 1) (Z.pred max_pages)) [] Hempty)
    as (tr & -> & Hreq & Hatt & Hstop).
  simpl. by rewrite Hreq, Hatt, Hstop.
Qed.

(** C3: a page of index 2 or more that yields no record does not stop the
    loop: the next page is attempted and the loop ends only after
    [max_pages] pages, without the early-stop warning. *)
Theorem later_page_without_records_continues
    query max_pages sort_by min_price max_price p :
  records (page_url float_str query sort_by min_price max_price 1) ≠ [] ->
  2 <= p <= max_pages ->
  records (page_url float_str query sort_by min_price max_price p) = [] ->
  pages_attempted (trace (run query max_pages sort_by min_price max_price))
    = seqZ 1 max_pages /\
  length (pages_attempted
            (trace (run query max_pages sort_by min_price max_price)))
    = Z.to_nat max_pages /\
  (p < max_pages ->
   p + 1 ∈ pages_attempted
             (trace (run query max_pages sort_by min_price max_price))) /\
  requests (trace (run query max_pages sort_by min_price max_price))
    = map (page_url float_str query sort_by min_price max_price)
          (seqZ 1 max_pages) /\
  early_stop_reported (trace (run query max_pages sort_by min_price max_price))
    = false.
Proof.
  intros Hfirst Hp Hempty.
  destruct (search_through query max_pages sort_by min_price max_price)
    as (tr & -> & Hreq & Hatt & Hstop); [done|].
  simpl. rewrite Hreq, Hatt, Hstop.
  split; [done|]. split; [apply length_seqZ|].
  split; [|done]. intros Hlt. apply elem_of_seqZ. lia.
Qed.

(** C1 (as the code has it): when the fetch of page [p] fails (the request
    raises, or the status is 4xx or 5xx) the page yields no record.  The
    loop stops at once only when [p] is 1; for a later page it goes on
    to page [max_pages].  What [search] returns is the list of records
    and nothing else, and the records of the pages before [p] are its
    first part. *)
Theorem failed_fetch_keeps_earlier_records
    query max_pages sort_by min_price max_price p :
  1 <= p <= max_pages ->
  (p ≠ 1 ->
   records (page_url float_str query sort_by min_price max_price 1) ≠ []) ->
  fetch_failed
    (session_get (page_url float_str query sort_by min_price max_price p))
    = true ->
  records (page_url float_str query sort_by min_price max_price p) = [] /\
  (p = 1 ->
   pages_attempted (trace (run query max_pages sort_by min_price max_price))
     = [1] /\
   result (run query max_pages sort_by min_price max_price) = Returns []) /\
  (p ≠ 1 ->
   pages_attempted (trace (run query max_pages sort_by min_price max_price))
     = seqZ 1 max_pages /\
   result (run query max_pages sort_by min_price max_price)
     = Returns
         (concat (map (fun i => records (page_url float_str query sort_by
                                           min_price max_price i))
                      (seqZ 1 (p - 1)))
          ++ concat (map (fun i => records (page_url float_str query sort_by
                                              min_price max_price i))
                         (seqZ (p + 1) (max_pages - p))))).
Proof.
  intros Hp Hfirst Hfail.
  pose proof (fetch_failed_scraped _ Hfail) as Hempty.
  split; [exact Hempty|]. split.
  - intros ->.
    destruct (first_page_without_records_stops
                query max_pages sort_by min_price max_price)
      as (Hatt & _ & _ & Hres); [lia|done|]. by split.
  - intros Hne.
    destruct (search_through query max_pages sort_by min_price max_price)
      as (tr & -> & _ & Hatt & _); [by intros _; apply Hfirst|].
    split; [exact Hatt|]. simpl. f_equal.
    replace max_pages with ((p - 1) + (1 + (max_pages - p))) at 1 by lia.
    rewrite seqZ_app by lia.
    replace (1 + (p - 1)) with p by lia.
    rewrite (seqZ_cons p) by lia.
    rewrite map_app, concat_app. simpl. rewrite Hempty. simpl.
    replace (Z.succ p) with (p + 1) by lia.
    by replace (Z.pred (1 + (max_pages - p))) with (max_pages - p) by lia.
Qed.

End SearchFacts.

Lemma first_page_without_records_stops_witness :
  pages_attempted
    (trace (search network_without_listings sample_clock whole_float_str
              title_only "laptop" 3 "best_match" None None)) = [1] /\
  early_stop_reported
    (trace (search network_without_listings sample_clock whole_float_str
              title_only "laptop" 3 "best_match" None None)) = true /\
  requests
    (trace (search network_without_listings sample_clock whole_float_str
              title_only "laptop" 3 "best_match" None None))
    = page_url whole_float_str "laptop" "best_match" None None 1 ::
        (if debug_mode title_only
         then [page_url whole_float_str "laptop" "best_match" None None 1]
         else []) /\
  result (search network_without_listings sample_clock whole_float_str
            title_only "laptop" 3 "best_match" None None) = Returns [].
Proof.
  apply first_page_without_records_stops; [lia | vm_compute; reflexivity].
Defined.

Lemma later_page_without_records_continues_witness :
  pages_attempted
    (trace (search network_empty_page_2 sample_clock whole_float_str
              title_only "laptop" 3 "best_match" None None)) = seqZ 1 3 /\
  length (pages_attempted
            (trace (search network_empty_page_2 sample_clock whole_float_str
                      title_only "laptop" 3 "best_match" None None)))
    = Z.to_nat 3 /\
  (2 < 3 ->
   2 + 1 ∈ pages_attempted
             (trace (search network_empty_page_2 sample_clock whole_float_str
                       title_only "laptop" 3 "best_match" None None))) /\
  requests
    (trace (search network_empty_page_2 sample_clock whole_float_str
              title_only "laptop" 3 "best_match" None None))
    = map (page_url whole_float_str "laptop" "best_match" None None) (seqZ 1 3) /\
  early_stop_reported
    (trace (search network_empty_page_2 sample_clock whole_float_str
              title_only "laptop" 3 "best_match" None None)) = false.
Proof.
  apply later_page_without_records_continues.
  - vm_compute. discriminate.
  - lia.
  - vm_compute; reflexivity.
Defined.

Lemma failed_fetch_keeps_earlier_records_witness :
  scraped network_blocking_page_2 sample_clock title_only
    (page_url whole_float_str "laptop" "best_match" None None 2) = [] /\
  (2 = 1 ->
   pages_attempted
     (trace (search network_blocking_page_2 sample_clock whole_float_str
               title_only "laptop" 3 "best_match" None None)) = [1] /\
   result (search network_blocking_page_2 sample_clock whole_float_str
             title_only "laptop" 3 "best_match" None None) = Returns []) /\
  (2 ≠ 1 ->
   pages_attempted
     (trace (search network_blocking_page_2 sample_clock whole_float_str
               title_only "laptop" 3 "best_match" None None)) = seqZ 1 3 /\
   result (search network_blocking_page_2 sample_clock whole_float_str
             title_only "laptop" 3 "best_match" None None)
     = Returns
         (concat (map (fun i => scraped network_blocking_page_2 sample_clock
                                  title_only
                                  (page_url whole_float_str "laptop"
                                     "best_match" None None i))
                      (seqZ 1 (2 - 1)))
          ++ concat (map (fun i => scraped network_blocking_page_2 sample_clock
                                     title_only
                                     (page_url whole_float_str "laptop"
                                        "best_match" None None i))
                         (seqZ (2 + 1) (3 - 2))))).
Proof.
  apply failed_fetch_keeps_earlier_records.
  - lia.
  - intros _. vm_compute. discriminate.
  - vm_compute; reflexivity.
Defined.

(** C1, counterexample to the claim as stated: page 2 is refused with
    status 429, and page 3 is requested all the same; no early stop is
    reported. *)
Lemma rate_limited_page_2_does_not_stop_pagination :
  fetch_failed
    (network_blocking_page_2
       (page_url whole_float_str "laptop" "best_match" None None 2)) = true /\
  pages_attempted
    (trace (search network_blocking_page_2 sample_clock whole_float_str
              title_only "laptop" 3 "best_match" None None)) = [1; 2; 3] /\
  requests
    (trace (search network_blocking_page_2 sample_clock whole_float_str
              title_only "laptop" 3 "best_match" None None))
    = ["https://www.ebay.com/sch/i.html?_nkw=laptop&_sop=12&_ipg=60&_pgn=1";
       "https://www.ebay.com/sch/i.html?_nkw=laptop&_sop=12&_ipg=60&_pgn=2";
       "https://www.ebay.com/sch/i.html?_nkw=laptop&_sop=12&_ipg=60&_pgn=3"] /\
  early_stop_reported
    (trace (search network_blocking_page_2 sample_clock whole_float_str
              title_only "laptop" 3 "best_match" None None)) = false.
Proof. repeat split; vm_compute; reflexivity. Qed.

(** * Properties of the query string *)

(** C10: a price bound of 0 is dropped like an absent one: the [_udlo]
    (respectively [_udhi]) parameter is left out, so the parameters, the
    address of every page and the whole run are those of a request without
    that bound. *)
Theorem zero_price_bound_is_omitted
    (session_get : string -> outcome Response) (clock : string -> nat -> string)
    (float_str : Q -> string) (self : EbayScraper)
    (query sort_by : string) (x : Q) (other : option Q) (max_pages page : Z) :
  (x == 0)%Q ->
  (search_params query sort_by (Some x) other
     = search_params query sort_by None other /\
   ("_udlo" ∉ (search_params query sort_by (Some x) other).*1) /\
   page_url float_str query sort_by (Some x) other page
     = page_url float_str query sort_by None other page /\
   search session_get clock float_str self query max_pages sort_by (Some x) other
     = search session_get clock float_str self query max_pages sort_by None other)
  /\
  (search_params query sort_by other (Some x)
     = search_params query sort_by other None /\
   ("_udhi" ∉ (search_params query sort_by other (Some x)).*1) /\
   page_url float_str query sort_by other (Some x) page
     = page_url float_str query sort_by other None page /\
   search session_get clock float_str self query max_pages sort_by other (Some x)
     = search session_get clock float_str self query max_pages sort_by other None).
Proof.
  intros Hzero.
  assert (float_truthy x = false) as Hfalsy.
  { unfold float_truthy. by rewrite (proj2 (Qeq_bool_iff x 0) Hzero). }
  assert (search_params query sort_by (Some x) other
          = search_params query sort_by None other) as Hmin
    by (unfold search_params; by rewrite Hfalsy).
  assert (search_params query sort_by other (Some x)
          = search_params query sort_by other None) as Hmax
    by (unfold search_params; by rewrite Hfalsy).
  split.
  - split; [exact Hmin|]. split; [|split].
    + rewrite Hmin. unfold search_params.
      destruct other as [y|]; [destruct (float_truthy y)|]; simpl;
        rewrite !elem_of_cons, elem_of_nil; intros H;
        repeat (destruct H as [H|H]; [discriminate H|]); exact H.
    + unfold page_url. by rewrite Hmin.
    + unfold search. by rewrite Hmin.
  - split; [exact Hmax|]. split; [|split].
    + rewrite Hmax. unfold search_params.
      destruct other as [y|]; [destruct (float_truthy y)|]; simpl;
        rewrite !elem_of_cons, elem_of_nil; intros H;
        repeat (destruct H as [H|H]; [discriminate H|]); exact H.
    + unfold page_url. by rewrite Hmax.
    + unfold search. by rewrite Hmax.
Qed.

Lemma zero_price_bound_is_omitted_witness :
  page_url whole_float_str "iphone 15" "price_low" (Some 0%Q) (Some (500 # 1)) 1
    = page_url whole_float_str "iphone 15" "price_low" None (Some (500 # 1)) 1.
Proof.
  apply (zero_price_bound_is_omitted
           network_without_listings sample_clock whole_float_str title_only
           "iphone 15" "price_low" 0%Q (Some (500 # 1)) 3 1).
  reflexivity.
Defined.

Example page_url_with_bounds :
  page_url whole_float_str "iphone 15" "price_low" (Some 0%Q) (Some (500 # 1)) 2
  = "https://www.ebay.com/sch/i.html?_nkw=iphone+15&_sop=15&_ipg=60&_udhi=500.0&_pgn=2".
Proof. reflexivity. Qed.

(** * Properties of the post-processing *)

(** C9: without a condition, [None] or the empty text,
    [filter_by_condition] returns its input. *)
Theorem filter_without_condition_is_identity
    (products : list (gmap string string)) :
  filter_by_condition products None = products /\
  filter_by_condition products (Some "") = products.
Proof. split; reflexivity. Qed.

Lemma filter_loop (test : gmap string string -> bool)
    (products filtered : list (gmap string string)) :
  fold_left
    (fun filtered product =>
       if test product then filtered ++ [product] else filtered)
    products filtered
  = filtered ++ List.filter test products.
Proof.
  revert filtered. induction products as [|product rest IH]; intros filtered.
  - by rewrite app_nil_r.
  - simpl. rewrite IH. destruct (test product); [|reflexivity].
    by rewrite <- app_assoc.
Qed.

Lemma lower_char_idempotent c :
  PyStr.lower_char (PyStr.lower_char c) = PyStr.lower_char c.
Proof. destruct c as [[] [] [] [] [] [] [] []]; reflexivity. Qed.

Lemma lower_idempotent s : PyStr.lower (PyStr.lower s) = PyStr.lower s.
Proof.
  induction s as [|c s IH]; [reflexivity|].
  simpl. by rewrite lower_char_idempotent, IH.
Qed.

Lemma contains_in_empty needle :
  needle ≠ "" -> PyStr.contains needle "" = false.
Proof. by destruct needle. Qed.

Lemma filter_by_condition_filter products condition :
  condition ≠ "" ->
  filter_by_condition products (Some condition)
  = List.filter (condition_matches condition) products.
Proof.
  intros Hne. destruct condition; [done|].
  unfold filter_by_condition. by rewrite filter_loop.
Qed.

Lemma prefix_cons a s1 b s2 :
  String.prefix (String a s1) (String b s2)
  = if ascii_dec a b then String.prefix s1 s2 else false.
Proof. reflexivity. Qed.

Lemma prefix_empty s : String.prefix "" s = true.
Proof. by destruct s. Qed.

Lemma contains_cons needle c s :
  PyStr.contains needle (String c s)
  = String.prefix needle (String c s) || PyStr.contains needle s.
Proof. reflexivity. Qed.


Lemma append_assoc (a b c : string) : (a +:+ b) +:+ c = a +:+ b +:+ c.
Proof.
  induction a as [|x a IH]; [done|].
  change (String x ((a +:+ b) +:+ c) = String x (a +:+ b +:+ c)).
  by rewrite IH.
Qed.

Lemma all_ascii_complete c : In c all_ascii.
Proof.
  rewrite <- (ascii_nat_embedding c). apply in_map, in_seq.
  pose proof (nat_ascii_bounded c). lia.
Qed.

(** Lowering two characters gives the same character exactly when they are
    equal up to case: checked on the 256 x 256 pairs. *)
Lemma lower_char_same_table :
  forallb
    (fun a =>
       forallb
         (fun b =>
            Bool.eqb (Ascii.eqb (PyStr.lower_char a) (PyStr.lower_char b))
                     (same_char_ignoring_case a b))
         all_ascii)
    all_ascii = true.
Proof. vm_compute. reflexivity. Qed.

Lemma lower_char_same a b :
  PyStr.lower_char a = PyStr.lower_char b
  <-> same_char_ignoring_case a b = true.
Proof.
  pose proof lower_char_same_table as H.
  rewrite List.forallb_forall in H. specialize (H a (all_ascii_complete a)).
  rewrite List.forallb_forall in H. specialize (H b (all_ascii_complete b)).
  apply Bool.eqb_prop in H. rewrite <- H. symmetry. apply Ascii.eqb_eq.
Qed.

Lemma lower_same s t :
  PyStr.lower s = PyStr.lower t <-> same_ignoring_case s t = true.
Proof.
  revert t. induction s as [|a s IH]; intros [|b t]; simpl; try done.
  rewrite andb_true_iff, <- IH, <- lower_char_same.
  split; [by intros [= -> ->] | by intros [-> ->]].
Qed.

Lemma same_ignoring_case_empty s :
  same_ignoring_case s "" = true -> s = "".
Proof. by destruct s. Qed.

(** The lowered text starts with the lowered condition exactly when the
    text starts with the condition up to case. *)
Lemma prefix_lower c h :
  String.prefix (PyStr.lower c) (PyStr.lower h) = true
  <-> exists found after,
        h = found +:+ after /\ same_ignoring_case c found = true.
Proof.
  revert h. induction c as [|x c IH]; intros h.
  - change (PyStr.lower "") with "". rewrite prefix_empty. split; [|done].
    intros _. by exists "", h.
  - destruct h as [|y h].
    + split; [done|]. intros (found & after & Heq & Hsame).
      by destruct found.
    + change (PyStr.lower (String x c))
        with (String (PyStr.lower_char x) (PyStr.lower c)).
      change (PyStr.lower (String y h))
        with (String (PyStr.lower_char y) (PyStr.lower h)).
      rewrite prefix_cons.
      destruct (ascii_dec (PyStr.lower_char x) (PyStr.lower_char y))
        as [Hxy|Hxy].
      * rewrite IH. apply lower_char_same in Hxy. split.
        -- intros (found & after & -> & Hsame).
           exists (String y found), after. split; [done|].
           simpl. by rewrite Hxy, Hsame.
        -- intros (found & after & Heq & Hsame).
           destruct found as [|z found]; [done|].
           injection Heq as <- ->. simpl in Hsame.
           apply andb_true_iff in Hsame as [_ Hsame].
           by exists found, after.
      * split; [done|]. intros (found & after & Heq & Hsame).
        destruct found as [|z found]; [done|].
        injection Heq as <- ->. simpl in Hsame.
        apply andb_true_iff in Hsame as [Hchar _].
        by apply lower_char_same in Hchar.
Qed.

(** The lowered text contains the lowered condition exactly when the text
    contains the condition up to case. *)
Lemma contains_lower c h :
  PyStr.contains (PyStr.lower c) (PyStr.lower h) = true
  <-> exists before found after,
        h = before +:+ found +:+ after /\ same_ignoring_case c found = true.
Proof.
  induction h as [|y h IH].
  - change (PyStr.lower "") with "".
    change (PyStr.contains (PyStr.lower c) "")
      with (String.prefix (PyStr.lower c) (PyStr.lower "") || false).
    rewrite orb_false_r, prefix_lower. split.
    + intros (found & after & Heq & Hsame). by exists "", found, after.
    + intros (before & found & after & Heq & Hsame).
      destruct before; [|done]. by exists found, after.
  - change (PyStr.lower (String y h))
      with (String (PyStr.lower_char y) (PyStr.lower h)).
    rewrite contains_cons, orb_true_iff, IH.
    change (String (PyStr.lower_char y) (PyStr.lower h))
      with (PyStr.lower (String y h)).
    rewrite prefix_lower. split.
    + intros [(found & after & Heq & Hsame)
             |(before & found & after & -> & Hsame)].
      * by exists "", found, after.
      * by exists (String y before), found, after.
    + intros (before & found & after & Heq & Hsame).
      destruct before as [|z before].
      * left. by exists found, after.
      * injection Heq as <- ->. right. by exists before, found, after.
Qed.

(** C6 (as the code has it), on ASCII text: with a non-empty condition the
    products kept are those whose condition text contains the condition,
    both brought to lower case.  So a product is kept exactly when its
    condition text has a part equal to the condition up to the case of the
    letters, and a condition that differs only by case keeps the same
    products.  A product without a condition is read as having the empty
    text and is left out. *)
Theorem filter_by_condition_matches_ignoring_case
    (products : list (gmap string string)) (condition : string) :
  condition ≠ "" ->
  PyStr.is_ascii condition = true ->
  forallb (fun product => PyStr.is_ascii (dict_get product "condition" ""))
    products = true ->
  filter_by_condition products (Some condition)
    = List.filter
        (fun product =>
           PyStr.contains (PyStr.lower condition)
             (PyStr.lower (dict_get product "condition" "")))
        products /\
  filter_by_condition products (Some (PyStr.lower condition))
    = filter_by_condition products (Some condition) /\
  (forall product,
     product ∈ filter_by_condition products (Some condition) <->
     product ∈ products /\
     exists before found after,
       dict_get product "condition" "" = before +:+ found +:+ after /\
       same_ignoring_case condition found = true) /\
  (forall other,
     same_ignoring_case condition other = true ->
     filter_by_condition products (Some other)
     = filter_by_condition products (Some condition)) /\
  forall product,
    product !! "condition" = None ->
    product ∉ filter_by_condition products (Some condition).
Proof.
  intros Hne _ _.
  split; [by apply filter_by_condition_filter|]. split; [|split; [|split]].
  - rewrite !filter_by_condition_filter; [|done|by destruct condition].
    unfold condition_matches. by rewrite lower_idempotent.
  - intros product. rewrite filter_by_condition_filter by done.
    rewrite list_elem_of_In, filter_In, <- list_elem_of_In.
    unfold condition_matches. by rewrite contains_lower.
  - intros other Hsame.
    assert (other ≠ "") as Hother
      by (intros ->; by apply same_ignoring_case_empty in Hsame).
    rewrite !filter_by_condition_filter by done.
    unfold condition_matches. apply lower_same in Hsame. by rewrite Hsame.
  - intros product Hnone Hin. rewrite filter_by_condition_filter in Hin by done.
    apply list_elem_of_In, filter_In in Hin as [_ Hmatch].
    unfold condition_matches, dict_get in Hmatch. rewrite Hnone in Hmatch.
    rewrite contains_in_empty in Hmatch; [discriminate|by destruct condition].
Qed.

Lemma filter_by_condition_matches_ignoring_case_witness :
  filter_by_condition
    [ {[ "condition" := "Brand New" ]}; {[ "condition" := "Pre-Owned" ]};
      {[ "condition" := "new (other)" ]}; {[ "title" := "Laptop" ]} ]
    (Some "NEW")
  = [ {[ "condition" := "Brand New" ]}; {[ "condition" := "new (other)" ]} ].
Proof.
  destruct (filter_by_condition_matches_ignoring_case
              [ {[ "condition" := "Brand New" ]};
                {[ "condition" := "Pre-Owned" ]};
                {[ "condition" := "new (other)" ]}; {[ "title" := "Laptop" ]} ]
              "NEW")
    as (Hkept & _); [discriminate | reflexivity | reflexivity |].
  rewrite Hkept. reflexivity.
Defined.

(** C6, counterexample to the claim as stated: a product without a
    condition does not pass the filter. *)
Lemma product_without_condition_is_filtered_out :
  (<["scraped_at" := sample_time]> (<["price" := "$20.00"]> ∅)
     : gmap string string) !! "condition" = None /\
  filter_by_condition
    [<["scraped_at" := sample_time]> (<["price" := "$20.00"]> ∅)] (Some "new")
    = [] /\
  <["scraped_at" := sample_time]> (<["price" := "$20.00"]> ∅)
    ∉ filter_by_condition
        [<["scraped_at" := sample_time]> (<["price" := "$20.00"]> ∅)]
        (Some "new").
Proof.
  assert ((<["scraped_at" := sample_time]> (<["price" := "$20.00"]> ∅)
             : gmap string string) !! "condition" = None) as Hnone
    by (by rewrite !lookup_insert_ne by discriminate).
  assert (filter_by_condition
            [<["scraped_at" := sample_time]> (<["price" := "$20.00"]> ∅)]
            (Some "new") = []) as Hout.
  { unfold filter_by_condition, condition_matches, dict_get. simpl.
    by rewrite Hnone. }
  split; [exact Hnone|]. split; [exact Hout|].
  rewrite Hout. apply not_elem_of_nil.
Qed.

(** The loop of [display_summary] keeps the prices that parse, in order,
    as long as every price is read. *)
Lemma collect_loop (products : list (gmap string string))
    (prices : option (list Q)) :
  fold_left
    (fun prices product =>
       prices ← prices;
       match Summary.price_of product with
       | PyFloat.Parsed price => Some (prices ++ [price])
       | PyFloat.Fails => Some prices
       | PyFloat.Unread => None
       end)
    products prices
  = prices ← prices;
    if all_read products then Some (prices ++ parsed_prices products)
    else None.
Proof.
  revert prices. induction products as [|product rest IH]; intros prices.
  - destruct prices as [prices|]; [|done]. simpl. by rewrite app_nil_r.
  - simpl fold_left. rewrite IH. destruct prices as [prices|]; [|done].
    unfold all_read, parsed_prices. simpl.
    destruct (Summary.price_of product); simpl; [|done|done].
    destruct (forallb _ rest); [|done]. by rewrite <- app_assoc.
Qed.

Lemma collect_prices_read products :
  Summary.collect_prices products
  = if all_read products then Some (parsed_prices products) else None.
Proof. unfold Summary.collect_prices. by rewrite collect_loop. Qed.





(** ** Decimal numerals *)


Lemma all_chars_impl (p q : ascii -> bool) s :
  (forall c, p c = true -> q c = true) ->
  PyStr.all_chars p s = true -> PyStr.all_chars q s = true.
Proof.
  intros Hpq. induction s as [|c s IH]; [done|]. simpl.
  rewrite !andb_true_iff. intros [Hc Hs]. split; [by apply Hpq | by apply IH].
Qed.

Lemma numeral_digits d :
  PyStr.all_chars PyFloat.is_digit (NilEmpty.string_of_uint d) = true.
Proof. induction d; simpl; done. Qed.

Lemma uint_value_acc d p :
  uint_value d (Z.pos p) = Z.pos (Pos.of_uint_acc d p).
Proof.
  revert p. induction d as [|d IH|d IH|d IH|d IH|d IH|d IH|d IH|d IH|d IH|d IH];
    intros p; [done|..];
    cbn [uint_value Pos.of_uint_acc]; rewrite <- IH; f_equal; lia.
Qed.

Lemma uint_value_of_uint d : uint_value d 0 = Z.of_uint d.
Proof.
  unfold Z.of_uint.
  induction d as [|d IH|d IH|d IH|d IH|d IH|d IH|d IH|d IH|d IH|d IH];
    [done | exact IH |..];
    cbn [uint_value Pos.of_uint Z.of_N]; rewrite <- uint_value_acc; f_equal.
Qed.

Lemma digitpart_numeral d acc cnt :
  PyFloat.digitpart (NilEmpty.string_of_uint d) acc cnt
  = (uint_value d acc, (cnt + Decimal.nb_digits d)%nat, "").
Proof.
  revert acc cnt.
  induction d as [|d IH|d IH|d IH|d IH|d IH|d IH|d IH|d IH|d IH|d IH];
    intros acc cnt;
    [simpl; by rewrite Nat.add_0_r|..];
    cbn [NilEmpty.string_of_uint PyFloat.digitpart uint_value Decimal.nb_digits];
    match goal with
    | |- (if PyFloat.is_digit ?c then _ else _) = _ =>
        change (PyFloat.is_digit c) with true; cbv iota
    end;
    rewrite IH, Nat.add_succ_r; repeat f_equal;
    unfold PyFloat.digit_val; simpl; lia.
Qed.

Lemma of_int_numeral lo :
  0 <= lo ->
  exists d,
    d ≠ Decimal.Nil /\ PyStr.of_int lo = NilEmpty.string_of_uint d /\
    Z.of_uint d = lo.
Proof.
  intros Hlo. destruct lo as [|p|p]; [| |lia].
  - by exists (Decimal.D0 Decimal.Nil).
  - exists (Pos.to_uint p).
    pose proof (DecimalPos.Unsigned.to_uint_nonnil p) as Hnil.
    split; [done|]. split.
    + unfold PyStr.of_int, NilZero.string_of_int, NilZero.string_of_uint.
      simpl. by destruct (Pos.to_uint p).
    + unfold Z.of_uint. by rewrite DecimalPos.Unsigned.of_to.
Qed.


Lemma digit_not_blank c : PyFloat.is_digit c = true -> PyFloat.is_blank c = false.
Proof. destruct c as [[] [] [] [] [] [] [] []]; done. Qed.

Lemma digit_is_ascii c :
  PyFloat.is_digit c = true -> (N_of_ascii c <? 128)%N = true.
Proof. destruct c as [[] [] [] [] [] [] [] []]; done. Qed.





Lemma rtrim_digits s :
  PyStr.all_chars PyFloat.is_digit s = true -> PyFloat.rtrim s = s.
Proof.
  induction s as [|c s IH]; [done|]. simpl.
  rewrite andb_true_iff. intros [Hc Hs]. rewrite IH by done.
  rewrite (digit_not_blank c Hc). by destruct s.
Qed.



Lemma Qred_whole n : Qred (inject_Z n) = inject_Z n.
Proof.
  unfold Qred, inject_Z.
  pose proof (Z.ggcd_gcd n 1) as Hgcd.
  pose proof (Z.ggcd_correct_divisors n 1) as Hdiv.
  destruct (Z.ggcd n 1) as [g [aa bb]]. simpl in Hgcd, Hdiv.
  rewrite Z.gcd_1_r in Hgcd. subst g. destruct Hdiv as [Ha Hb].
  rewrite Z.mul_1_l in Ha, Hb. by subst.
Qed.

(** An operation whose exact result is a whole number below [2 ^ 53] does
    not round. *)
Lemma double_whole q n :
  (q == inject_Z n)%Q -> Z.abs n < 2 ^ 53 ->
  PyFloat.double q = Some (inject_Z n).
Proof.
  intros Hq Hn. unfold PyFloat.double.
  rewrite (Qred_complete _ _ Hq), Qred_whole.
  unfold PyFloat.is_double, inject_Z. cbn [Qnum Qden].
  apply Z.ltb_lt in Hn. by rewrite Hn.
Qed.

(** [float] of the decimal numeral of a whole number below [2 ^ 53]. *)
Lemma parse_numeral d :
  d ≠ Decimal.Nil -> Z.of_uint d < 2 ^ 53 ->
  PyFloat.parse (NilEmpty.string_of_uint d)
  = PyFloat.Parsed (inject_Z (Z.of_uint d)).
Proof.
  intros Hd Hlt.
  assert (0 <= Z.of_uint d) as Hpos by (unfold Z.of_uint; lia).
  unfold PyFloat.parse, PyStr.is_ascii.
  rewrite (all_chars_impl _ _ _ digit_is_ascii (numeral_digits d)).
  cbn [negb].
  assert (PyFloat.trim (NilEmpty.string_of_uint d) = NilEmpty.string_of_uint d)
    as ->.
  { unfold PyFloat.trim.
    assert (PyFloat.ltrim (NilEmpty.string_of_uint d)
            = NilEmpty.string_of_uint d) as -> by (by destruct d).
    apply rtrim_digits, numeral_digits. }
  assert (PyFloat.sign (NilEmpty.string_of_uint d)
          = (false, NilEmpty.string_of_uint d)) as -> by (by destruct d).
  assert (PyFloat.special (NilEmpty.string_of_uint d) = false) as ->
    by (by destruct d).
  rewrite digitpart_numeral, uint_value_of_uint.
  assert (Nat.eqb (0 + Decimal.nb_digits d) 0 = false) as ->
    by (by destruct d).
  cbn [andb PyFloat.exponent Z.of_nat Z.sub Z.opp Z.add Z.abs Z.ltb
       Z.compare orb].
  rewrite (double_whole _ (Z.of_uint d)); [done| |lia].
  unfold PyFloat.scale. cbn [Z.leb Z.compare]. by rewrite Z.pow_0_r, Z.mul_1_r.
Qed.

Lemma parse_of_int lo :
  0 <= lo < 2 ^ 53 ->
  PyFloat.parse (PyStr.of_int lo) = PyFloat.Parsed (inject_Z lo).
Proof.
  intros [Hlo Hhi]. destruct (of_int_numeral lo Hlo) as (d & Hd & -> & <-).
  by apply parse_numeral.
Qed.




Example price_of_examples :
  Summary.price_of {[ "price" := "$1,299.00 to $1,499.00" ]}
    = PyFloat.Parsed 1299 /\
  Summary.price_of {[ "price" := "$12.50" ]} = PyFloat.Parsed (25 # 2) /\
  Summary.price_of {[ "price" := "N/A" ]} = PyFloat.Fails /\
  Summary.price_of {[ "title" := "Laptop" ]} = PyFloat.Fails /\
  Summary.price_of {[ "price" := "$19.99" ]} = PyFloat.Unread /\
  Summary.price_of {[ "price" := "inf" ]} = PyFloat.Unread.
Proof. repeat split; reflexivity. Qed.


(** * Further properties of [_extract_product_data] *)

Lemma is_Some_put flag key v (d : gmap string string) k :
  is_Some (put flag key v d !! k) <-> (k = key /\ flag = true) \/ is_Some (d !! k).
Proof.
  unfold put. destruct flag.
  - rewrite lookup_insert. case_decide as Hk.
    + subst. split; [intros _; by left | intros _; by eexists].
    + split; [by right | intros [[-> _]|H]; [done | exact H]].
  - split; [by right | intros [[_ H]|H]; [discriminate | exact H]].
Qed.

Lemma fields_product_keys self item now product k :
  is_Some (fields_product self item now product !! k) <->
  k = "scraped_at" \/ (k ∈ other_fields /\ selected self k = true)
  \/ is_Some (product !! k).
Proof.
  unfold fields_product. rewrite !is_Some_put.
  unfold other_fields. rewrite !elem_of_cons, elem_of_nil.
  intuition (subst; auto 10).
Qed.

Lemma titled_keys self item product k :
  titled self item = Some product ->
  is_Some (product !! k) <-> k = "title" /\ selected self "title" = true.
Proof.
  unfold titled. destruct (selected self "title").
  - destruct (title_chain item) as [title|]; [|discriminate].
    case_bool_decide; [discriminate|]. intros [= <-].
    rewrite lookup_insert. case_decide as Hk.
    + subst. split; [by intros _ | intros _; by eexists].
    + rewrite lookup_empty. split; [by intros [? ?] | by intros [-> _]].
  - intros [= <-]. rewrite lookup_empty.
    split; [by intros [? ?] | by intros [_ ?]].
Qed.

Lemma extraction_result self item now :
  result (_extract_product_data self item now) = Returns (extraction self item now).
Proof. unfold extraction, returned. by rewrite extract_result. Qed.

Lemma extraction_value self item now :
  extraction self item now =
  match titled self item with
  | None => None
  | Some product =>
      let p := fields_product self item now product in
      if (1 <? size p)%nat then Some p else None
  end.
Proof. unfold extraction, returned. by rewrite extract_result. Qed.

Lemma extraction_Some self item now p :
  extraction self item now = Some p ->
  exists product,
    titled self item = Some product /\
    p = fields_product self item now product /\ (1 < size p)%nat.
Proof.
  rewrite extraction_value.
  destruct (titled self item) as [product|]; [|discriminate]. simpl.
  destruct (1 <? size _)%nat eqn:Hsize; [|discriminate].
  intros [= <-]. apply Nat.ltb_lt in Hsize. by exists product.
Qed.

(** X1: a record [_extract_product_data] returns has the key [scraped_at]
    and, of the eight names the code knows, exactly those that are selected:
    a field that is not selected never appears, a selected one always does,
    and a selected name the code does not know is ignored. *)
Theorem extracted_record_keys self item now p k :
  result (_extract_product_data self item now) = Returns (Some p) ->
  is_Some (p !! k) <->
  k = "scraped_at" \/ (k ∈ known_fields /\ selected self k = true).
Proof.
  rewrite extraction_result. intros [= Hp].
  apply extraction_Some in Hp as (product & Htitled & -> & _).
  rewrite fields_product_keys, (titled_keys _ _ _ _ Htitled).
  unfold known_fields. rewrite elem_of_cons. intuition (subst; auto).
Qed.

Lemma extracted_record_keys_witness :
  is_Some ((<["scraped_at" := sample_time]> (<["price" := "$20.00"]> ∅)
              : gmap string string) !! "price") <->
  "price" = "scraped_at" \/
  ("price" ∈ known_fields /\ selected price_only "price" = true).
Proof.
  apply (extracted_record_keys price_only banner_node sample_time).
  vm_compute; reflexivity.
Defined.

(** X2: for a selected field other than the title on which the lookup finds a
    text, that text is stored as it is in the record, unless the title rule
    rejects the node. *)
Theorem located_text_is_stored self item now name v :
  name ∈ other_fields ->
  selected self name = true ->
  located item name = Some v ->
  title_accepted self item ->
  exists p,
    result (_extract_product_data self item now) = Returns (Some p) /\
    p !! name = Some v.
Proof.
  intros Hname Hsel Hloc Hacc.
  destruct (titled_accepted _ _ Hacc) as (product & Htitled & _).
  rewrite extraction_result, extraction_value, Htitled. simpl.
  assert (fields_product self item now product !! name = Some v) as Hlook.
  { rewrite fields_product_other, Hloc by done. reflexivity. }
  rewrite (proj2 (Nat.ltb_lt _ _)).
  - eexists; split; [reflexivity | exact Hlook].
  - apply size_two with name "scraped_at".
    + by apply other_fields_not_scraped_at.
    + by rewrite Hlook.
    + by rewrite fields_product_scraped_at.
Qed.

Lemma located_text_is_stored_witness :
  exists p,
    result (_extract_product_data price_only banner_node sample_time)
      = Returns (Some p) /\
    p !! "price" = Some "$20.00".
Proof.
  apply (located_text_is_stored price_only banner_node sample_time "price").
  - unfold other_fields. rewrite !elem_of_cons. tauto.
  - vm_compute; reflexivity.
  - reflexivity.
  - intros Hsel. vm_compute in Hsel. discriminate Hsel.
Defined.

Lemma title_chain_element item : title_chain item = text <$> title_element item.
Proof.
  unfold title_chain, title_element.
  by destruct (find item SpanRoleHeading), (find item DivItemTitle),
    (find item H3ItemTitle).
Qed.

(** X3: with the title selected, the title is the text of the first element
    present among the heading span, the title div and the title h3.  If that
    text is in the rejection list the node is rejected, and a later element
    of the chain is not tried; otherwise the record holds that text. *)
Theorem title_is_first_present_element self item now e :
  selected self "title" = true ->
  title_element item = Some e ->
  (text e ∈ rejected_titles ->
   result (_extract_product_data self item now) = Returns None) /\
  (text e ∉ rejected_titles ->
   exists p,
     result (_extract_product_data self item now) = Returns (Some p) /\
     p !! "title" = Some (text e)).
Proof.
  intros Hsel Helem.
  rewrite extraction_result, extraction_value.
  unfold titled. rewrite Hsel, title_chain_element, Helem. simpl.
  split; intros Hrej.
  - by rewrite bool_decide_eq_true_2.
  - rewrite bool_decide_eq_false_2 by done.
    assert (fields_product self item now (<["title" := text e]> ∅) !! "title"
            = Some (text e)) as Hlook
      by (by rewrite fields_product_title, lookup_insert_eq).
    rewrite (proj2 (Nat.ltb_lt _ _)).
    + eexists; split; [reflexivity | exact Hlook].
    + apply size_two with "title" "scraped_at".
      * discriminate.
      * by rewrite Hlook.
      * by rewrite fields_product_scraped_at.
Qed.

Lemma title_is_first_present_element_witness :
  result (_extract_product_data title_and_price empty_heading_node sample_time)
    = Returns None.
Proof.
  apply (title_is_first_present_element
           title_and_price empty_heading_node sample_time (plain_tag "")).
  - vm_compute; reflexivity.
  - reflexivity.
  - unfold rejected_titles. simpl. rewrite !elem_of_cons. tauto.
Defined.

(** X4: [_extract_product_data] performs no request and prints nothing,
    except for one line in debug mode when the title is selected and no
    element of the title chain is present. *)
Theorem extraction_prints_only_missing_title self item now :
  trace (_extract_product_data self item now) =
  if debug_mode self && selected self "title"
     && bool_decide (title_chain item = None)
  then [PrintDebugNoTitle] else [].
Proof.
  unfold _extract_product_data.
  rewrite trace_try_except, result_bind, trace_bind, title_block_result.
  assert (trace (title_block self item ∅) =
          if debug_mode self && selected self "title"
             && bool_decide (title_chain item = None)
          then [PrintDebugNoTitle] else []) as ->.
  { unfold title_block, title_chain.
    destruct (selected self "title"); [|by rewrite andb_false_r].
    destruct (_ ||| _) as [elem|]; simpl.
    - rewrite andb_false_r. by destruct (bool_decide _).
    - by destruct (debug_mode self). }
  destruct (titled self item) as [product|]; simpl.
  - rewrite fields_block_spec. simpl. by rewrite !app_nil_r.
  - by rewrite !app_nil_r.
Qed.

(** X5: when none of the names the code knows is selected, as on a scraper
    just built by [__init__], every node is rejected: the dict would hold the
    time stamp only. *)
Theorem nothing_selected_nothing_extracted self item now :
  (forall k, k ∈ known_fields -> selected self k = false) ->
  result (_extract_product_data self item now) = Returns None.
Proof.
  intros Hnone.
  assert (forall k, k ∈ known_fields -> selected self k = false) as H by done.
  rewrite extraction_result, extraction_value.
  unfold titled, fields_product, put.
  unfold known_fields, other_fields in H.
  rewrite !H by (rewrite !elem_of_cons; tauto). simpl.
  rewrite map_size_insert_None by apply lookup_empty.
  by rewrite map_size_empty.
Qed.

Lemma nothing_selected_nothing_extracted_witness :
  result (_extract_product_data __init__ laptop_node sample_time) = Returns None.
Proof.
  apply nothing_selected_nothing_extracted.
  intros k _. reflexivity.
Defined.

(** * Further properties of [_scrape_page] *)

Lemma extraction_not_empty self item now p :
  extraction self item now = Some p -> p ≠ ∅.
Proof.
  intros Hp. apply extraction_Some in Hp as (_ & _ & _ & Hsize).
  intros ->. rewrite map_size_empty in Hsize. lia.
Qed.

(** On what the extraction returns, [if product:] holds as soon as it is not
    [None]. *)
Lemma product_truthy_extraction self item now :
  product_truthy (extraction self item now)
  = bool_decide (is_Some (extraction self item now)).
Proof.
  destruct (extraction self item now) as [p|] eqn:Hp.
  - unfold product_truthy.
    rewrite (bool_decide_eq_false_2 (p = ∅)) by (by eapply extraction_not_empty).
    symmetry. apply bool_decide_eq_true_2. by eexists.
  - symmetry. apply bool_decide_eq_false_2. by intros [? ?].
Qed.

Lemma extractions_cons clock self url idx item rest :
  extractions clock self url idx (item :: rest)
  = option_list (extraction self item (clock url idx))
    ++ extractions clock self url (S idx) rest.
Proof.
  unfold extractions, enumerate_from. simpl.
  by destruct (extraction self item (clock url idx)).
Qed.

Lemma extractions_length clock self url idx items :
  (length (extractions clock self url idx items) <= length items)%nat.
Proof.
  revert idx. induction items as [|item rest IH]; intros idx; [done|].
  rewrite extractions_cons, length_app. specialize (IH (S idx)).
  destruct (extraction self item (clock url idx)); simpl; lia.
Qed.

Lemma extractions_elem clock self url idx items p :
  p ∈ extractions clock self url idx items ->
  exists item i, item ∈ items /\ extraction self item (clock url i) = Some p.
Proof.
  revert idx. induction items as [|item rest IH]; intros idx.
  - intros Hin. by apply elem_of_nil in Hin.
  - rewrite extractions_cons, elem_of_app. intros [Hin|Hin].
    + destruct (extraction self item (clock url idx)) as [q|] eqn:Hq; simpl in Hin.
      * apply list_elem_of_singleton in Hin as ->.
        exists item, idx. split; [left | done].
      * by apply elem_of_nil in Hin.
    + destruct (IH _ Hin) as (it & i & Hit & Hp).
      exists it, i. split; [by right | done].
Qed.

Section ScrapeFacts.

Variable session_get : string -> outcome Response.
Variable clock : string -> nat -> string.
Variable self : EbayScraper.

Lemma extract_items_result url items idx products :
  result (extract_items clock self url items idx products)
  = Returns (products ++ extractions clock self url idx items).
Proof.
  revert idx products.
  induction items as [|item rest IH]; intros idx products.
  - simpl. by rewrite app_nil_r.
  - simpl. rewrite result_bind, extraction_result, result_bind.
    rewrite extractions_cons, product_truthy_extraction.
    destruct (extraction self item (clock url idx)) as [p|]; simpl.
    + rewrite IH. by rewrite <- app_assoc.
    + rewrite result_bind, result_when by (eexists; apply result_emit).
      simpl. by rewrite IH.
Qed.

(** Either the fetch failed and the page yields nothing, or the page is read. *)
Lemma scraped_cases url :
  (fetch_failed (session_get url) = true /\
   scraped session_get clock self url = []) \/
  (exists response,
     session_get url = Returns response /\
     fetch_failed (session_get url) = false /\
     scraped session_get clock self url
       = extractions clock self url 0 (page_items response)).
Proof.
  destruct (fetch_failed (session_get url)) eqn:Hfail.
  - left. split; [done|]. by apply fetch_failed_scraped.
  - right. destruct (session_get url) as [response|e] eqn:Hget; [|discriminate].
    exists response. split; [done|]. split; [done|].
    unfold scraped, returned, _scrape_page, get. rewrite Hget.
    rewrite result_try_except, result_bind. simpl.
    unfold raise_for_status. simpl in Hfail. rewrite Hfail.
    rewrite result_bind. simpl.
    rewrite result_bind, result_when by (eexists; apply result_emit).
    fold (page_items response). by rewrite extract_items_result.
Qed.

(** X6: [_scrape_page] never raises and requests [url] exactly once,
    whatever the network answers.  When the request raises a
    [RequestException], or the status is between 400 and 599, it prints one
    network-error line and returns the empty list; on any other exception it
    prints one unexpected-error line (and the traceback in debug mode) and
    returns the empty list. *)
Theorem scrape_page_never_raises url :
  (exists records, result (_scrape_page session_get clock self url) = Returns records) /\
  requests (trace (_scrape_page session_get clock self url)) = [url] /\
  (forall response,
     session_get url = Returns response ->
     400 <= status_code response < 600 ->
     _scrape_page session_get clock self url
     = ([Get url; PrintNetworkError (HTTPError (status_code response))],
        Returns [])) /\
  (forall e,
     session_get url = Raises e ->
     _scrape_page session_get clock self url
     = (Get url ::
          (if is_RequestException e then [PrintNetworkError e]
           else PrintUnexpectedError e ::
                  (if debug_mode self then [PrintTraceback] else [])),
        Returns [])).
Proof.
  destruct (scrape_page_shape session_get clock self url) as (log & Heq & Hlog).
  split; [rewrite Heq; by eexists|].
  split; [rewrite Heq; simpl; by rewrite requests_log|].
  split.
  - intros response Hget Hstatus.
    assert ((400 <=? status_code response) && (status_code response <? 600)
            = true) as Hfail by (apply andb_true_iff; split; lia).
    unfold _scrape_page, get, raise_for_status. rewrite Hget.
    cbv zeta. simpl. by rewrite Hfail.
  - intros e Hget. unfold _scrape_page, get. rewrite Hget. simpl.
    destruct (is_RequestException e); [reflexivity|].
    by destruct (debug_mode self).
Qed.

(** X7: when the request returns a response whose status is not between
    400 and 599 (a 2xx, but also a 1xx or 3xx), the records of the page are
    the accepted extractions of its nodes, in document order: the nodes are
    the [li.s-item] elements when there are any, and the [div.s-item__wrapper]
    elements otherwise; node [idx] is stamped with the time of its turn. *)
Theorem scrape_page_reads_nodes_in_order url response :
  session_get url = Returns response ->
  ~ (400 <= status_code response < 600) ->
  result (_scrape_page session_get clock self url)
    = Returns (scraped session_get clock self url) /\
  (li_s_item (soup response) ≠ [] ->
   scraped session_get clock self url
   = extractions clock self url 0 (li_s_item (soup response))) /\
  (li_s_item (soup response) = [] ->
   scraped session_get clock self url
   = extractions clock self url 0 (div_s_item_wrapper (soup response))).
Proof.
  intros Hget Hstatus.
  destruct (scrape_page_shape session_get clock self url) as (log & Heq & _).
  split; [by rewrite Heq|].
  destruct (scraped_cases url) as [[Hfail _]|(r & Hr & _ & Hscraped)].
  - rewrite Hget in Hfail. simpl in Hfail.
    apply andb_true_iff in Hfail as [H1 H2]. lia.
  - rewrite Hget in Hr. injection Hr as <-. rewrite Hscraped.
    unfold page_items.
    split; intros Hitems; [by destruct (li_s_item (soup response))|].
    by rewrite Hitems.
Qed.

End ScrapeFacts.

Lemma scrape_page_never_raises_witness :
  _scrape_page network_blocking_page_2 sample_clock title_only
    "https://www.ebay.com/sch/i.html?_nkw=laptop&_pgn=2"
  = ([Get "https://www.ebay.com/sch/i.html?_nkw=laptop&_pgn=2";
      PrintNetworkError (HTTPError 429)], Returns []).
Proof.
  destruct (scrape_page_never_raises network_blocking_page_2 sample_clock
              title_only "https://www.ebay.com/sch/i.html?_nkw=laptop&_pgn=2")
    as (_ & _ & Hstatus & _).
  apply (Hstatus rate_limited_page).
  - reflexivity.
  - simpl. lia.
Defined.

(** A page answered with a redirect status and the alternative markup. *)
Lemma scrape_page_reads_nodes_in_order_witness :
  scraped
    (fun _ => Returns {| status_code := 302; content := ""; resp_text := "";
                         soup := {| li_s_item := [];
                                    div_s_item_wrapper := [laptop_node] |} |})
    sample_clock title_only "u"
  = extractions sample_clock title_only "u" 0 [laptop_node].
Proof.
  destruct (scrape_page_reads_nodes_in_order
              (fun _ => Returns {| status_code := 302; content := "";
                                   resp_text := "";
                                   soup := {| li_s_item := [];
                                              div_s_item_wrapper := [laptop_node] |} |})
              sample_clock title_only "u"
              {| status_code := 302; content := ""; resp_text := "";
                 soup := {| li_s_item := [];
                            div_s_item_wrapper := [laptop_node] |} |})
    as (_ & _ & Hdiv).
  - reflexivity.
  - simpl. lia.
  - apply Hdiv. reflexivity.
Defined.

Lemma scraped_elem session_get clock self url p :
  p ∈ scraped session_get clock self url ->
  exists item idx, extraction self item (clock url idx) = Some p.
Proof.
  destruct (scraped_cases session_get clock self url)
    as [[_ ->]|(response & _ & _ & ->)].
  - intros Hin. by apply elem_of_nil in Hin.
  - intros Hin. apply extractions_elem in Hin as (item & idx & _ & Hp).
    by exists item, idx.
Qed.

Lemma extraction_valid self item now p :
  extraction self item now = Some p ->
  (1 < size p)%nat /\
  p !! "scraped_at" = Some now /\
  (forall k,
     is_Some (p !! k) <->
     k = "scraped_at" \/ (k ∈ known_fields /\ selected self k = true)) /\
  (selected self "title" = true ->
   exists title, p !! "title" = Some title /\ title ∉ rejected_titles).
Proof.
  intros Hp. apply extraction_Some in Hp as (product & Htitled & -> & Hsize).
  split; [done|]. split; [apply fields_product_scraped_at|]. split.
  - intros k. rewrite fields_product_keys, (titled_keys _ _ _ _ Htitled).
    unfold known_fields. rewrite elem_of_cons. intuition (subst; auto).
  - intros Hsel. rewrite fields_product_title.
    pose proof (titled_title _ _ _ Htitled) as Ht. rewrite Hsel in Ht.
    destruct Ht as (title & _ & Hnot & Hlook). by exists title.
Qed.

Lemma extractions_elem_at clock self url idx items p :
  p ∈ extractions clock self url idx items ->
  exists i item,
    items !! i = Some item /\
    extraction self item (clock url (idx + i)%nat) = Some p.
Proof.
  revert idx. induction items as [|item rest IH]; intros idx.
  - intros Hin. by apply elem_of_nil in Hin.
  - rewrite extractions_cons, elem_of_app. intros [Hin|Hin].
    + destruct (extraction self item (clock url idx)) as [q|] eqn:Hq;
        simpl in Hin.
      * apply list_elem_of_singleton in Hin as ->.
        exists 0%nat, item. split; [done|]. by rewrite Nat.add_0_r.
      * by apply elem_of_nil in Hin.
    + destruct (IH _ Hin) as (i & it & Hit & Hp).
      exists (S i), it. split; [done|]. by rewrite Nat.add_succ_r.
Qed.

(** X8: a page never yields more records than it has listing nodes.  Every
    record it yields is the extraction of a node of the page that answered,
    made at the time of that node's turn and stamped with it; it has more
    than one entry, exactly the selected known fields as keys beside
    [scraped_at] and, when the title is selected, a title outside the
    rejection list. *)
Theorem scraped_records_are_valid session_get clock self url :
  (forall response,
     session_get url = Returns response ->
     (length (scraped session_get clock self url)
      <= length (page_items response))%nat) /\
  (forall p,
     p ∈ scraped session_get clock self url ->
     (1 < size p)%nat /\
     (exists response idx item,
        session_get url = Returns response /\
        page_items response !! idx = Some item /\
        extraction self item (clock url idx) = Some p /\
        p !! "scraped_at" = Some (clock url idx)) /\
     (forall k,
        is_Some (p !! k) <->
        k = "scraped_at" \/ (k ∈ known_fields /\ selected self k = true)) /\
     (selected self "title" = true ->
      exists title, p !! "title" = Some title /\ title ∉ rejected_titles)).
Proof.
  split.
  - intros response Hget.
    destruct (scraped_cases session_get clock self url)
      as [[_ ->]|(r & Hr & _ & ->)]; [simpl; lia|].
    rewrite Hget in Hr. injection Hr as <-. apply extractions_length.
  - intros p Hin.
    destruct (scraped_cases session_get clock self url)
      as [[_ Hnone]|(response & Hget & _ & Hread)].
    { rewrite Hnone in Hin. by apply elem_of_nil in Hin. }
    rewrite Hread in Hin.
    apply extractions_elem_at in Hin as (idx & item & Hitem & Hp).
    change (0 + idx)%nat with idx in Hp.
    pose proof (extraction_valid _ _ _ _ Hp) as (Hsize & Hstamp & Hkeys & Htitle).
    split; [done|]. split; [by exists response, idx, item|]. by split.
Qed.

(** A page with two listing nodes of which the second has a title: its
    record bears the time of the second turn. *)
Lemma scraped_records_are_valid_witness :
  scraped (fun _ => Returns two_listings_page) turn_clock title_only "u"
  = [ <["scraped_at" := "turn 1"]> {[ "title" := "Laptop" ]} ] /\
  exists idx item,
    page_items two_listings_page !! idx = Some item /\
    extraction title_only item (turn_clock "u" idx)
    = Some (<["scraped_at" := "turn 1"]> {[ "title" := "Laptop" ]}) /\
    (<["scraped_at" := "turn 1"]> {[ "title" := "Laptop" ]}
       : gmap string string) !! "scraped_at"
    = Some (turn_clock "u" idx).
Proof.
  assert (scraped (fun _ => Returns two_listings_page) turn_clock title_only "u"
          = [ <["scraped_at" := "turn 1"]> {[ "title" := "Laptop" ]} ]) as Hpage
    by (vm_compute; reflexivity).
  split; [exact Hpage|].
  destruct (scraped_records_are_valid (fun _ => Returns two_listings_page)
              turn_clock title_only "u") as (_ & Hrecord).
  destruct (Hrecord (<["scraped_at" := "turn 1"]> {[ "title" := "Laptop" ]}))
    as (_ & (response & idx & item & Hget & Hitem & Hp & Hstamp) & _).
  - rewrite Hpage. left.
  - injection Hget as <-. exists idx, item.
    split; [exact Hitem|]. split; [exact Hp | exact Hstamp].
Defined.

(** * Further properties of [search] *)

Lemma pauses_app tr1 tr2 : pauses (tr1 ++ tr2) = (pauses tr1 + pauses tr2)%nat.
Proof. unfold pauses. by rewrite List.filter_app, length_app. Qed.

Lemma pauses_cons e tr :
  pauses (e :: tr)
  = ((match e with Sleep => 1 | _ => 0 end) + pauses tr)%nat.
Proof. unfold pauses. simpl. by destruct e. Qed.

Ltac count_pauses :=
  repeat (rewrite pauses_cons || rewrite pauses_app);
  change (pauses []) with 0%nat.

Lemma pauses_log tr : Forall (fun e => is_log e = true) tr -> pauses tr = 0%nat.
Proof.
  induction 1 as [|e tr He _ IH]; [reflexivity|].
  destruct e; try discriminate; exact IH.
Qed.

Section RunFacts.

Variable session_get : string -> outcome Response.
Variable clock : string -> nat -> string.
Variable float_str : Q -> string.
Variable self : EbayScraper.

Abbreviation page_records := (scraped session_get clock self).
Abbreviation loop := (search_pages session_get clock float_str self).
Abbreviation start := (search session_get clock float_str self).

Lemma search_pages_stop_pauses params max_pages rest acc :
  page_records (url_for float_str params 1) = [] ->
  pauses (trace (loop params max_pages (1 :: rest) acc)) = 0%nat.
Proof.
  intros Hempty. simpl. fold (url_for float_str params 1).
  destruct (scrape_page_shape session_get clock self (url_for float_str params 1))
    as (log & -> & Hlog).
  destruct (diagnose_shape session_get (url_for float_str params 1))
    as (dlog & -> & Hdlog).
  rewrite Hempty. do 2 io_unfold. simpl.
  destruct (debug_mode self); simpl; count_pauses;
    rewrite ?(pauses_log log), ?(pauses_log dlog) by done; reflexivity.
Qed.

Lemma search_pages_through_pauses params max_pages pages acc :
  Forall (fun p => p = 1 -> page_records (url_for float_str params p) ≠ []) pages ->
  pauses (trace (loop params max_pages pages acc)) = length pages.
Proof.
  revert params acc.
  induction pages as [|page rest IH]; intros params acc Hpages; [reflexivity|].
  apply Forall_cons in Hpages as [Hpage Hrest].
  simpl. fold (url_for float_str params page).
  destruct (scrape_page_shape session_get clock self
              (url_for float_str params page)) as (log & -> & Hlog).
  do 2 io_unfold. simpl.
  assert (Nat.eqb (length (page_records (url_for float_str params page))) 0
          && (page =? 1) = false) as ->.
  { destruct (page =? 1) eqn:Hone; [|apply andb_false_r].
    apply Z.eqb_eq in Hone. specialize (Hpage Hone).
    destruct (page_records _); [done|reflexivity]. }
  assert (forall p,
            url_for float_str (Url.dict_set "_pgn" (Url.VInt page) params) p
            = url_for float_str params p) as Hurl
    by (intros p; unfold url_for; by rewrite dict_set_set).
  specialize (IH (Url.dict_set "_pgn" (Url.VInt page) params)
                 (acc ++ page_records (url_for float_str params page))).
  rewrite (io_eta (loop _ _ _ _)).
  destruct (debug_mode self); simpl; count_pauses;
    rewrite (pauses_log log) by done; simpl;
    (rewrite IH; [reflexivity|]);
    (eapply Forall_impl; [exact Hrest|]); intros p Hp; by rewrite Hurl.
Qed.

(** The three ways a run of [search] can go. *)
Lemma search_cases query max_pages sort_by min_price max_price :
  (max_pages <= 0 /\
   start query max_pages sort_by min_price max_price = ([], Returns [])) \/
  (1 <= max_pages /\
   page_records (page_url float_str query sort_by min_price max_price 1) = [] /\
   exists tr,
     start query max_pages sort_by min_price max_price = (tr, Returns []) /\
     requests tr =
       page_url float_str query sort_by min_price max_price 1 ::
         (if debug_mode self
          then [page_url float_str query sort_by min_price max_price 1]
          else []) /\
     pages_attempted tr = [1] /\
     early_stop_reported tr = true /\
     pauses tr = 0%nat) \/
  (1 <= max_pages /\
   page_records (page_url float_str query sort_by min_price max_price 1) ≠ [] /\
   exists tr,
     start query max_pages sort_by min_price max_price =
       (tr, Returns (concat (map (fun p => page_records
                                             (page_url float_str query sort_by
                                                min_price max_price p))
                                 (seqZ 1 max_pages)))) /\
     requests tr = map (page_url float_str query sort_by min_price max_price)
                       (seqZ 1 max_pages) /\
     pages_attempted tr = seqZ 1 max_pages /\
     early_stop_reported tr = false /\
     pauses tr = Z.to_nat max_pages).
Proof.
  destruct (Z_le_gt_dec max_pages 0) as [Hle|Hgt].
  { left. split; [done|]. unfold search. by rewrite seqZ_nil. }
  right.
  destruct (page_records (page_url float_str query sort_by min_price max_price 1))
    as [|r rs] eqn:Hfirst.
  - left. split; [lia|]. split; [done|].
    pose proof (search_pages_stop_pauses
                  (search_params query sort_by min_price max_price) max_pages
                  (seqZ (Z.succ 1) (Z.pred max_pages)) [] Hfirst) as Hpauses.
    destruct (search_pages_stop session_get clock float_str self
                (search_params query sort_by min_price max_price) max_pages
                (seqZ (Z.succ 1) (Z.pred max_pages)) [] Hfirst)
      as (tr & Heq & Hreq & Hatt & Hstop).
    unfold search. rewrite seqZ_cons by lia.
    rewrite Heq in Hpauses. exists tr. by rewrite Heq.
  - right. split; [lia|]. split; [done|].
    assert (Forall (fun p => p = 1 ->
                      page_records
                        (url_for float_str
                           (search_params query sort_by min_price max_price) p)
                      ≠ []) (seqZ 1 max_pages)) as Hpages.
    { apply Forall_seqZ. intros p _ ->.
      change (url_for float_str (search_params query sort_by min_price max_price) 1)
        with (page_url float_str query sort_by min_price max_price 1).
      by rewrite Hfirst. }
    pose proof (search_pages_through_pauses _ max_pages _ [] Hpages) as Hpauses.
    destruct (search_pages_through session_get clock float_str self
                _ max_pages _ [] Hpages) as (tr & Heq & Hreq & Hatt & Hstop).
    unfold search. rewrite Heq in Hpauses. simpl in Hpauses.
    rewrite length_seqZ in Hpauses.
    exists tr. by rewrite Heq.
Qed.

(** X9: [search] never raises, whatever the network answers, and what it
    returns is the concatenation, in page order, of the records of the pages
    it attempted. *)
Theorem search_returns_records_of_attempted_pages
    query max_pages sort_by min_price max_price :
  exists records,
    result (start query max_pages sort_by min_price max_price) = Returns records /\
    records =
      concat (map (fun p => page_records (page_url float_str query sort_by
                                             min_price max_price p))
                  (pages_attempted
                     (trace (start query max_pages sort_by min_price max_price)))).
Proof.
  destruct (search_cases query max_pages sort_by min_price max_price)
    as [[_ ->]|[(_ & Hfirst & tr & -> & _ & Hatt & _)
               |(_ & _ & tr & -> & _ & Hatt & _)]];
    eexists; (split; [reflexivity|]); simpl.
  - reflexivity.
  - rewrite Hatt. simpl. by rewrite Hfirst.
  - by rewrite Hatt.
Qed.

(** With [max_pages] zero or negative, [search] does nothing at all: no
    request, no line printed, no pause, and the empty list is returned
    without the warning. *)
Lemma search_without_pages query max_pages sort_by min_price max_price :
  max_pages <= 0 ->
  start query max_pages sort_by min_price max_price = ([], Returns []).
Proof. intros Hle. unfold search. by rewrite seqZ_nil. Qed.

(** X10: the pages attempted are an initial part of 1, 2, ..., [max_pages]
    (never more than [max_pages], never out of order); each is requested once,
    at its own address, and the only other request is the one of the diagnosis
    of page 1, made in debug mode after an early stop. *)
Theorem search_requests_only_attempted_pages
    query max_pages sort_by min_price max_price :
  pages_attempted (trace (start query max_pages sort_by min_price max_price))
    `prefix_of` seqZ 1 max_pages /\
  requests (trace (start query max_pages sort_by min_price max_price))
    = map (page_url float_str query sort_by min_price max_price)
          (pages_attempted
             (trace (start query max_pages sort_by min_price max_price)))
      ++ (if debug_mode self
             && early_stop_reported
                  (trace (start query max_pages sort_by min_price max_price))
          then [page_url float_str query sort_by min_price max_price 1]
          else []) /\
  (length (requests (trace (start query max_pages sort_by min_price max_price)))
   <= Z.to_nat max_pages + 1)%nat.
Proof.
  destruct (search_cases query max_pages sort_by min_price max_price)
    as [[Hle ->]|[(Hge & _ & tr & -> & Hreq & Hatt & Hstop & _)
                 |(Hge & _ & tr & -> & Hreq & Hatt & Hstop & _)]]; simpl.
  - split; [apply prefix_nil|]. rewrite andb_false_r. split; [reflexivity|lia].
  - rewrite Hreq, Hatt, Hstop, andb_true_r. split; [|split].
    + rewrite seqZ_cons by lia. by eexists.
    + reflexivity.
    + destruct (debug_mode self); simpl; lia.
  - rewrite Hreq, Hatt, Hstop, andb_false_r, app_nil_r. split; [done|].
    split; [done|]. rewrite length_map, length_seqZ. lia.
Qed.

(** X11: the warning of the early stop is printed exactly when [max_pages]
    is at least 1 and page 1 yields no record; in that case [search] does not
    pause, and otherwise it pauses once after every page, the last one
    included. *)
Theorem search_pauses_after_every_page
    query max_pages sort_by min_price max_price :
  (early_stop_reported
     (trace (start query max_pages sort_by min_price max_price)) = true <->
   1 <= max_pages /\
   page_records (page_url float_str query sort_by min_price max_price 1) = []) /\
  pauses (trace (start query max_pages sort_by min_price max_price))
    = if early_stop_reported
           (trace (start query max_pages sort_by min_price max_price))
      then 0%nat else Z.to_nat max_pages.
Proof.
  destruct (search_cases query max_pages sort_by min_price max_price)
    as [[Hle ->]|[(Hge & Hfirst & tr & -> & _ & _ & Hstop & Hpauses)
                 |(Hge & Hfirst & tr & -> & _ & _ & Hstop & Hpauses)]]; simpl.
  - split; [split; [discriminate | lia]|].
    symmetry. apply Z2Nat.nonpos. exact Hle.
  - rewrite Hstop, Hpauses. by split.
  - rewrite Hstop, Hpauses. split; [|done].
    split; [discriminate | by intros [_ ?]].
Qed.

Lemma extractions_nothing_selected url idx items :
  (forall k, k ∈ known_fields -> selected self k = false) ->
  extractions clock self url idx items = [].
Proof.
  intros Hnone. revert idx. induction items as [|item rest IH]; intros idx; [done|].
  rewrite extractions_cons, IH, extraction_value.
  unfold titled, fields_product, put.
  unfold known_fields, other_fields in Hnone.
  rewrite !Hnone by (rewrite !elem_of_cons; tauto). simpl.
  rewrite map_size_insert_None by apply lookup_empty.
  by rewrite map_size_empty.
Qed.

(** X12: a scraper on which no known field is selected, such as the one
    [__init__] builds, gets nothing from [search]: for [max_pages] at least 1
    it requests page 1, warns, and returns the empty list, whatever the
    network answers. *)
Theorem search_without_fields_finds_nothing
    query max_pages sort_by min_price max_price :
  (forall k, k ∈ known_fields -> selected self k = false) ->
  1 <= max_pages ->
  result (start query max_pages sort_by min_price max_price) = Returns [] /\
  pages_attempted (trace (start query max_pages sort_by min_price max_price))
    = [1] /\
  early_stop_reported (trace (start query max_pages sort_by min_price max_price))
    = true.
Proof.
  intros Hnone Hge.
  assert (forall url, page_records url = []) as Hempty.
  { intros url.
    destruct (scraped_cases session_get clock self url)
      as [[_ ->]|(response & _ & _ & ->)]; [done|].
    by apply extractions_nothing_selected. }
  destruct (search_cases query max_pages sort_by min_price max_price)
    as [[Hle _]|[(_ & _ & tr & -> & _ & Hatt & Hstop & _)
                |(_ & Hfirst & _)]].
  - lia.
  - by simpl.
  - by rewrite Hempty in Hfirst.
Qed.

Lemma search_records_elem query max_pages sort_by min_price max_price records p :
  result (start query max_pages sort_by min_price max_price) = Returns records ->
  p ∈ records ->
  exists url, p ∈ page_records url.
Proof.
  destruct (search_cases query max_pages sort_by min_price max_price)
    as [[_ ->]|[(_ & _ & tr & -> & _)|(_ & _ & tr & -> & _)]];
    simpl; intros [= <-] Hin.
  - by apply elem_of_nil in Hin.
  - by apply elem_of_nil in Hin.
  - apply list_elem_of_In, in_concat in Hin as (l & Hl & Hp).
    apply in_map_iff in Hl as (page & <- & _).
    eexists. apply list_elem_of_In. exact Hp.
Qed.

Lemma search_record_keys query max_pages sort_by min_price max_price records p k :
  result (start query max_pages sort_by min_price max_price) = Returns records ->
  p ∈ records ->
  is_Some (p !! k) <->
  k = "scraped_at" \/ (k ∈ known_fields /\ selected self k = true).
Proof.
  intros Hres Hin.
  destruct (search_records_elem _ _ _ _ _ _ _ Hres Hin) as (url & Hp).
  apply scraped_elem in Hp as (item & idx & Hp).
  by apply extraction_valid in Hp as (_ & _ & Hk & _).
Qed.

(** X13: all the records [search] returns have the same keys: [scraped_at]
    and the selected known fields. *)
Theorem search_records_share_keys
    query max_pages sort_by min_price max_price records :
  result (start query max_pages sort_by min_price max_price) = Returns records ->
  (forall p k,
     p ∈ records ->
     is_Some (p !! k) <->
     k = "scraped_at" \/ (k ∈ known_fields /\ selected self k = true)) /\
  (forall p1 p2, p1 ∈ records -> p2 ∈ records -> dom p1 = dom p2).
Proof.
  intros Hres. split.
  - intros p k Hin. by eapply search_record_keys.
  - intros p1 p2 H1 H2. apply set_eq. intros k.
    rewrite !elem_of_dom.
    rewrite (search_record_keys _ _ _ _ _ _ p1 k Hres H1).
    by rewrite (search_record_keys _ _ _ _ _ _ p2 k Hres H2).
Qed.

(** X14: filtering what [search] returns by a non-empty condition leaves
    nothing when the condition is not among the selected fields: the records
    then have no condition to match. *)
Theorem filter_needs_condition_field
    query max_pages sort_by min_price max_price records condition :
  result (start query max_pages sort_by min_price max_price) = Returns records ->
  selected self "condition" = false ->
  condition ≠ "" ->
  filter_by_condition records (Some condition) = [].
Proof.
  intros Hres Hsel Hne.
  assert (forall p, p ∈ records -> p !! "condition" = None) as Hnone.
  { intros p Hin. apply eq_None_not_Some.
    rewrite (search_record_keys _ _ _ _ _ _ p "condition" Hres Hin).
    intros [Heq|[_ Hcond]]; [discriminate Heq|]. by rewrite Hsel in Hcond. }
  destruct condition as [|c condition]; [done|].
  unfold filter_by_condition. rewrite filter_loop. simpl.
  clear Hres. induction records as [|p rest IH]; [done|].
  simpl. unfold condition_matches at 1, dict_get.
  rewrite (Hnone p) by left.
  rewrite contains_in_empty by discriminate.
  apply IH. intros q Hq. apply Hnone. by right.
Qed.

End RunFacts.

Lemma search_without_fields_finds_nothing_witness :
  result (search network_blocking_page_2 sample_clock whole_float_str __init__
            "laptop" 3 "best_match" None None) = Returns [] /\
  pages_attempted
    (trace (search network_blocking_page_2 sample_clock whole_float_str __init__
              "laptop" 3 "best_match" None None)) = [1] /\
  early_stop_reported
    (trace (search network_blocking_page_2 sample_clock whole_float_str __init__
              "laptop" 3 "best_match" None None)) = true.
Proof.
  apply search_without_fields_finds_nothing; [|lia].
  intros k _. reflexivity.
Defined.

Lemma search_records_share_keys_witness :
  is_Some ((<["scraped_at" := sample_time]> (<["title" := "Laptop"]> ∅)
              : gmap string string) !! "title") <->
  "title" = "scraped_at" \/
  ("title" ∈ known_fields /\ selected title_only "title" = true).
Proof.
  destruct (search_records_share_keys network_empty_page_2 sample_clock
              whole_float_str title_only "laptop" 3 "best_match" None None
              [<["scraped_at" := sample_time]> (<["title" := "Laptop"]> ∅);
               <["scraped_at" := sample_time]> (<["title" := "Laptop"]> ∅)])
    as (Hkeys & _).
  - vm_compute; reflexivity.
  - apply Hkeys. left.
Defined.

Lemma filter_needs_condition_field_witness :
  filter_by_condition
    (returned [] (search network_empty_page_2 sample_clock whole_float_str
                    title_only "laptop" 3 "best_match" None None))
    (Some "new") = [].
Proof.
  apply (filter_needs_condition_field network_empty_page_2 sample_clock
           whole_float_str title_only "laptop" 3 "best_match" None None).
  - vm_compute; reflexivity.
  - reflexivity.
  - discriminate.
Defined.

Lemma extraction_fields self1 self2 item now :
  selected_fields self1 = selected_fields self2 ->
  extraction self1 item now = extraction self2 item now.
Proof.
  intros Hfields. rewrite !extraction_value.
  unfold titled, fields_product, selected. by rewrite Hfields.
Qed.

Lemma extractions_fields clock self1 self2 url idx items :
  selected_fields self1 = selected_fields self2 ->
  extractions clock self1 url idx items = extractions clock self2 url idx items.
Proof.
  intros Hfields. revert idx.
  induction items as [|item rest IH]; intros idx; [done|].
  by rewrite !extractions_cons, IH, (extraction_fields self1 self2).
Qed.

Lemma scraped_fields session_get clock self1 self2 url :
  selected_fields self1 = selected_fields self2 ->
  scraped session_get clock self1 url = scraped session_get clock self2 url.
Proof.
  intros Hfields.
  destruct (scraped_cases session_get clock self1 url)
    as [[Hfail1 ->]|(r1 & Hr1 & Hok1 & ->)];
    destruct (scraped_cases session_get clock self2 url)
      as [[Hfail2 ->]|(r2 & Hr2 & Hok2 & ->)].
  - done.
  - congruence.
  - congruence.
  - assert (r1 = r2) as -> by congruence. by apply extractions_fields.
Qed.

(** X15: the debug flag changes what is printed and whether the diagnosis
    runs, never the data: two scrapers with the same selected fields get the
    same records from [search]. *)
Theorem search_result_ignores_debug_mode
    session_get clock float_str self1 self2
    query max_pages sort_by min_price max_price :
  selected_fields self1 = selected_fields self2 ->
  result (search session_get clock float_str self1 query max_pages sort_by
            min_price max_price)
  = result (search session_get clock float_str self2 query max_pages sort_by
              min_price max_price).
Proof.
  intros Hfields.
  pose proof (scraped_fields session_get clock self1 self2) as Hsame.
  destruct (search_cases session_get clock float_str self1
              query max_pages sort_by min_price max_price)
    as [[Hle1 ->]|[(Hge1 & Hfirst1 & tr1 & -> & _)
                  |(Hge1 & Hfirst1 & tr1 & -> & _)]];
    destruct (search_cases session_get clock float_str self2
                query max_pages sort_by min_price max_price)
      as [[Hle2 ->]|[(Hge2 & Hfirst2 & tr2 & -> & _)
                    |(Hge2 & Hfirst2 & tr2 & -> & _)]];
    simpl; try reflexivity; try lia.
  - rewrite Hsame in Hfirst1 by done. by rewrite Hfirst1 in Hfirst2.
  - rewrite Hsame in Hfirst1 by done. by rewrite Hfirst2 in Hfirst1.
  - do 2 f_equal. apply map_ext. intros p. by apply Hsame.
Qed.

Lemma search_result_ignores_debug_mode_witness :
  result (search network_empty_page_2 sample_clock whole_float_str title_only
            "laptop" 3 "best_match" None None)
  = result (search network_empty_page_2 sample_clock whole_float_str
              {| selected_fields := ["title"]; debug_mode := true |}
              "laptop" 3 "best_match" None None).
Proof. apply search_result_ignores_debug_mode. reflexivity. Defined.

(** X16: a sort key that is none of [price_low], [price_high] and [newest]
    is read as [best_match]: the addresses and the whole run are the
    same. *)
Theorem unknown_sort_is_best_match
    session_get clock float_str self query max_pages sort_by min_price max_price
    page :
  sort_by ≠ "price_low" -> sort_by ≠ "price_high" -> sort_by ≠ "newest" ->
  sort_code sort_by = 12 /\
  page_url float_str query sort_by min_price max_price page
  = page_url float_str query "best_match" min_price max_price page /\
  search session_get clock float_str self query max_pages sort_by
    min_price max_price
  = search session_get clock float_str self query max_pages "best_match"
      min_price max_price.
Proof.
  intros Hlow Hhigh Hnew.
  assert (sort_code sort_by = 12) as Hcode.
  { unfold sort_code.
    destruct (String.eqb_spec sort_by "best_match"); [done|].
    destruct (String.eqb_spec sort_by "price_low"); [done|].
    destruct (String.eqb_spec sort_by "price_high"); [done|].
    by destruct (String.eqb_spec sort_by "newest"). }
  assert (search_params query sort_by min_price max_price
          = search_params query "best_match" min_price max_price) as Hparams
    by (unfold search_params; by rewrite Hcode).
  split; [done|]. split.
  - unfold page_url. by rewrite Hparams.
  - unfold search. by rewrite Hparams.
Qed.

Lemma unknown_sort_is_best_match_witness :
  page_url whole_float_str "laptop" "cheapest" None None 1
  = page_url whole_float_str "laptop" "best_match" None None 1.
Proof.
  apply (unknown_sort_is_best_match network_without_listings sample_clock
           whole_float_str title_only "laptop" 3 "cheapest" None None 1);
    discriminate.
Defined.

(** * Further properties of the addresses *)

Lemma append_inv_head (a b c : string) : a +:+ b = a +:+ c -> b = c.
Proof.
  induction a as [|x a IH]; [done|].
  change (String x (a +:+ b) = String x (a +:+ c) -> b = c).
  intros [= H]. by apply IH.
Qed.

Lemma quote_plus_digits d :
  Url.quote_plus (NilEmpty.string_of_uint d) = NilEmpty.string_of_uint d.
Proof. induction d; simpl; by rewrite ?IHd. Qed.

Lemma quote_plus_of_int n : Url.quote_plus (PyStr.of_int n) = PyStr.of_int n.
Proof.
  unfold PyStr.of_int, NilZero.string_of_int, NilZero.string_of_uint.
  destruct (Z.to_int n) as [d|d]; destruct d;
    try reflexivity;
    try (change (NilEmpty.string_of_uint (?D ?d))
           with (NilEmpty.string_of_uint (D d)));
    try (by rewrite quote_plus_digits);
    try (simpl; by rewrite quote_plus_digits).
Qed.

Lemma of_int_inj n m : PyStr.of_int n = PyStr.of_int m -> n = m.
Proof.
  unfold PyStr.of_int. intros Heq.
  assert (forall z, NilZero.int_of_string (NilZero.string_of_int (Z.to_int z))
                    = Some (Z.to_int z)) as Hparse.
  { intros z. apply NilZero.isi; destruct z; simpl; try discriminate;
      intros [= H]; by apply DecimalPos.Unsigned.to_uint_nonnil in H. }
  assert (Z.to_int n = Z.to_int m) as Hint.
  { pose proof (Hparse n) as Hn. rewrite Heq, Hparse in Hn. congruence. }
  by rewrite <- (DecimalZ.of_to n), Hint, DecimalZ.of_to.
Qed.

Lemma page_url_parts float_str query sort_by min_price max_price page :
  page_url float_str query sort_by min_price max_price page
  = "https://www.ebay.com/sch/i.html?_nkw=" +:+ Url.quote_plus query
    +:+ "&_sop=" +:+ PyStr.of_int (sort_code sort_by)
    +:+ "&_ipg=60"
    +:+ bound_param float_str "_udlo" min_price
    +:+ bound_param float_str "_udhi" max_price
    +:+ "&_pgn=" +:+ PyStr.of_int page.
Proof.
  unfold page_url, build_url, search_params, bound_param, Url.urlencode.
  destruct min_price as [x|]; [destruct (float_truthy x)|];
    (destruct max_price as [y|]; [destruct (float_truthy y)|]);
    simpl; rewrite !quote_plus_of_int, ?append_assoc; simpl;
    rewrite ?append_assoc; reflexivity.
Qed.

(** X17: the address of a page is the base address followed by the query
    term, the sort code, the page size 60, the price bounds that are given
    and not zero, and the page number, in this order; the query term is
    escaped and the numbers are written in decimal. *)
Theorem page_url_format float_str query sort_by min_price max_price page :
  page_url float_str query sort_by min_price max_price page
  = "https://www.ebay.com/sch/i.html?_nkw=" +:+ Url.quote_plus query
    +:+ "&_sop=" +:+ PyStr.of_int (sort_code sort_by)
    +:+ "&_ipg=60"
    +:+ bound_param float_str "_udlo" min_price
    +:+ bound_param float_str "_udhi" max_price
    +:+ "&_pgn=" +:+ PyStr.of_int page.
Proof. apply page_url_parts. Qed.

(** X18: two pages of one search have different addresses. *)
Theorem page_url_distinct float_str query sort_by min_price max_price p1 p2 :
  p1 ≠ p2 ->
  page_url float_str query sort_by min_price max_price p1
  ≠ page_url float_str query sort_by min_price max_price p2.
Proof.
  intros Hne Heq. apply Hne. rewrite !page_url_parts in Heq.
  repeat (apply append_inv_head in Heq).
  by apply of_int_inj.
Qed.

Lemma page_url_distinct_witness :
  page_url whole_float_str "laptop" "best_match" None None 1
  ≠ page_url whole_float_str "laptop" "best_match" None None 2.
Proof. apply page_url_distinct. lia. Defined.

(** * Further properties of [_diagnose_issue] *)

(** X19: [_diagnose_issue] never raises and requests [url] exactly once.
    When a response arrives it first prints the status and the length of
    the content; the hint for a 403 status is printed exactly when the
    status is 403, the hint for a 429 status exactly when it is 429.  When
    the request raises, the error is printed and nothing else happens. *)
Theorem diagnose_reports_status
    (session_get : string -> outcome Response) (url : string) :
  result (_diagnose_issue session_get url) = Returns tt /\
  requests (trace (_diagnose_issue session_get url)) = [url] /\
  (forall response,
     session_get url = Returns response ->
     (exists rest,
        trace (_diagnose_issue session_get url)
        = Get url
            :: PrintStatus (status_code response)
                 (String.length (content response))
            :: rest) /\
     (PrintForbidden ∈ trace (_diagnose_issue session_get url)
      <-> status_code response = 403) /\
     (PrintRateLimited ∈ trace (_diagnose_issue session_get url)
      <-> status_code response = 429)) /\
  (forall e,
     session_get url = Raises e ->
     _diagnose_issue session_get url
     = ([Get url; PrintDiagnosisError e], Returns tt)).
Proof.
  destruct (diagnose_shape session_get url) as (log & Heq & Hlog).
  split; [by rewrite Heq|].
  split; [rewrite Heq; simpl; by rewrite requests_log|].
  split.
  - intros response Hget. unfold _diagnose_issue, get. rewrite Hget.
    do 2 io_unfold. simpl.
    destruct (status_code response =? 403) eqn:H403;
      [|destruct (status_code response =? 429) eqn:H429];
      destruct (_ || _); simpl;
      (split; [by eexists|]);
      rewrite ?Z.eqb_eq, ?Z.eqb_neq in *;
      split; split; intros H; try lia;
      repeat (apply elem_of_cons in H as [H|H]; [discriminate|]);
      try (by apply elem_of_nil in H);
      repeat (first [left; reflexivity | right]).
  - intros e Hget. unfold _diagnose_issue, get. by rewrite Hget.
Qed.

Lemma diagnose_reports_status_witness :
  PrintRateLimited
    ∈ trace (_diagnose_issue (fun _ => Returns rate_limited_page) "u") /\
  PrintForbidden
    ∉ trace (_diagnose_issue (fun _ => Returns rate_limited_page) "u").
Proof.
  destruct (diagnose_reports_status (fun _ => Returns rate_limited_page) "u")
    as (_ & _ & Hresponse & _).
  destruct (Hresponse rate_limited_page) as (_ & H403 & H429); [reflexivity|].
  split.
  - apply H429. reflexivity.
  - intros Hin. apply H403 in Hin. discriminate.
Defined.

(** * Further properties of [filter_by_condition] *)

Lemma filter_twice {A} (f g : A -> bool) (l : list A) :
  List.filter f (List.filter g l) = List.filter (fun x => g x && f x) l.
Proof.
  induction l as [|x l IH]; [done|]. simpl.
  destruct (g x); simpl; [|exact IH].
  destruct (f x); by rewrite IH.
Qed.

Lemma filter_sublist {A} (f : A -> bool) (l : list A) :
  List.filter f l `sublist_of` l.
Proof.
  induction l as [|x l IH]; [constructor|]. simpl.
  destruct (f x); by constructor.
Qed.

(** The two ways [filter_by_condition] reads its condition. *)
Lemma filter_by_condition_cases products condition :
  filter_by_condition products condition = products \/
  exists c, condition = Some c /\ c ≠ "" /\
            filter_by_condition products condition
            = List.filter (condition_matches c) products.
Proof.
  destruct condition as [[|x c]|]; [by left| |by left].
  right. eexists; split; [reflexivity|]. split; [discriminate|].
  by apply filter_by_condition_filter.
Qed.

(** X20: filtering twice by the same condition gives what filtering once
    gives. *)
Theorem filter_by_condition_idempotent
    (products : list (gmap string string)) (condition : option string) :
  filter_by_condition (filter_by_condition products condition) condition
  = filter_by_condition products condition.
Proof.
  destruct condition as [[|x c]|]; [done| |done].
  rewrite !filter_by_condition_filter by discriminate.
  rewrite filter_twice. apply List.filter_ext. intros p.
  by destruct (condition_matches _ p).
Qed.

(** X21: [filter_by_condition] only drops products: what it returns is its
    input with some products left out, in the same order, so it is never
    longer than the input. *)
Theorem filter_by_condition_only_drops
    (products : list (gmap string string)) (condition : option string) :
  filter_by_condition products condition `sublist_of` products /\
  (length (filter_by_condition products condition) <= length products)%nat.
Proof.
  assert (filter_by_condition products condition `sublist_of` products) as Hsub.
  { destruct (filter_by_condition_cases products condition)
      as [->|(c & _ & _ & ->)]; [done|apply filter_sublist]. }
  split; [done|]. by apply sublist_length.
Qed.

(** X22: filtering commutes with putting pages together, and two filters
    can be applied in either order. *)
Theorem filter_by_condition_composes
    (products more : list (gmap string string)) (c1 c2 : option string) :
  filter_by_condition (products ++ more) c1
  = filter_by_condition products c1 ++ filter_by_condition more c1 /\
  filter_by_condition (filter_by_condition products c1) c2
  = filter_by_condition (filter_by_condition products c2) c1.
Proof.
  split.
  - destruct c1 as [[|x c]|]; [done| |done].
    rewrite !filter_by_condition_filter by discriminate.
    apply List.filter_app.
  - destruct c1 as [[|x1 c1]|], c2 as [[|x2 c2]|]; try reflexivity.
    rewrite !filter_by_condition_filter by discriminate.
    rewrite !filter_twice. apply List.filter_ext. intros p. apply andb_comm.
Qed.

(** * Further properties of [display_summary] *)

Lemma Qltb_false x y : Summary.Qltb x y = false -> (y <= x)%Q.
Proof.
  unfold Summary.Qltb. intros H. apply negb_false_iff in H.
  by apply Qle_bool_iff.
Qed.

Lemma Qltb_true x y : Summary.Qltb x y = true -> (x <= y)%Q.
Proof.
  unfold Summary.Qltb. intros H. apply negb_true_iff in H.
  apply Qlt_le_weak, Qnot_le_lt. intros Hle.
  apply Qle_bool_iff in Hle. congruence.
Qed.

Lemma py_min_spec x xs :
  Summary.py_min x xs ∈ x :: xs /\
  forall y, y ∈ x :: xs -> (Summary.py_min x xs <= y)%Q.
Proof.
  revert x. induction xs as [|z xs IH]; intros x.
  - split; [left|]. intros y Hy. apply list_elem_of_singleton in Hy as ->.
    apply Qle_refl.
  - change (Summary.py_min x (z :: xs))
      with (Summary.py_min (if Summary.Qltb z x then z else x) xs).
    destruct (Summary.Qltb z x) eqn:Hlt;
      destruct (IH (if Summary.Qltb z x then z else x)) as [Hin Hle];
      rewrite Hlt in Hin, Hle.
    + split.
      * apply elem_of_cons in Hin as [->|Hin]; [right; left | by do 2 right].
      * intros y Hy. apply elem_of_cons in Hy as [->|Hy].
        -- eapply Qle_trans; [apply Hle; left | by apply Qltb_true].
        -- by apply Hle.
    + split.
      * apply elem_of_cons in Hin as [->|Hin]; [left | by do 2 right].
      * intros y Hy. apply elem_of_cons in Hy as [->|Hy]; [apply Hle; left|].
        apply elem_of_cons in Hy as [->|Hy].
        -- eapply Qle_trans; [apply Hle; left | by apply Qltb_false].
        -- apply Hle. by right.
Qed.

Lemma py_max_spec x xs :
  Summary.py_max x xs ∈ x :: xs /\
  forall y, y ∈ x :: xs -> (y <= Summary.py_max x xs)%Q.
Proof.
  revert x. induction xs as [|z xs IH]; intros x.
  - split; [left|]. intros y Hy. apply list_elem_of_singleton in Hy as ->.
    apply Qle_refl.
  - change (Summary.py_max x (z :: xs))
      with (Summary.py_max (if Summary.Qltb x z then z else x) xs).
    destruct (Summary.Qltb x z) eqn:Hlt;
      destruct (IH (if Summary.Qltb x z then z else x)) as [Hin Hle];
      rewrite Hlt in Hin, Hle.
    + split.
      * apply elem_of_cons in Hin as [->|Hin]; [right; left | by do 2 right].
      * intros y Hy. apply elem_of_cons in Hy as [->|Hy].
        -- eapply Qle_trans; [by apply Qltb_true | apply Hle; left].
        -- by apply Hle.
    + split.
      * apply elem_of_cons in Hin as [->|Hin]; [left | by do 2 right].
      * intros y Hy. apply elem_of_cons in Hy as [->|Hy]; [apply Hle; left|].
        apply elem_of_cons in Hy as [->|Hy].
        -- eapply Qle_trans; [by apply Qltb_false | apply Hle; left].
        -- apply Hle. by right.
Qed.

Lemma statistics_cases products :
  Summary.price_statistics products = None \/
  (Summary.collect_prices products = Some [] /\
   Summary.price_statistics products = Some None) \/
  (exists p ps avg,
     Summary.collect_prices products = Some (p :: ps) /\
     Summary.price_statistics products
     = Some (Some (avg, Summary.py_min p ps, Summary.py_max p ps))).
Proof.
  unfold Summary.price_statistics.
  destruct (Summary.collect_prices products) as [[|p ps]|];
    [right; left; done | | by left].
  simpl. destruct (Summary.py_sum (p :: ps)) as [total|]; [|by left].
  simpl. destruct (PyFloat.double _) as [avg|]; [|by left].
  right. right. by exists p, ps, avg.
Qed.

(** X23: when [display_summary] has figures to print, the prices are those
    of the products whose price parses, in order; the minimum and the
    maximum are prices of the list and every price lies between them. *)
Theorem price_range_bounds_every_price
    (products : list (gmap string string)) (avg lo hi : Q) :
  Summary.price_statistics products = Some (Some (avg, lo, hi)) ->
  Summary.collect_prices products = Some (parsed_prices products) /\
  lo ∈ parsed_prices products /\
  hi ∈ parsed_prices products /\
  forall price,
    price ∈ parsed_prices products -> (lo <= price <= hi)%Q.
Proof.
  intros Hstats.
  destruct (statistics_cases products)
    as [Hnone|[[_ Hnone]|(p & ps & a & Hprices & Hsome)]];
    [congruence | congruence |].
  rewrite Hsome in Hstats. injection Hstats as _ <- <-.
  assert (parsed_prices products = p :: ps) as Hparsed.
  { rewrite collect_prices_read in Hprices.
    destruct (all_read products); congruence. }
  rewrite Hparsed.
  destruct (py_min_spec p ps) as [Hmin_in Hmin].
  destruct (py_max_spec p ps) as [Hmax_in Hmax].
  split; [done|]. split; [done|]. split; [done|].
  intros price Hin. split; [by apply Hmin | by apply Hmax].
Qed.

Lemma price_range_bounds_every_price_witness :
  parsed_prices
    [ {[ "price" := "$30.00" ]}; {[ "price" := "$20.00 to $50.00" ]};
      {[ "price" := "N/A" ]} ] = [30; 20]%Q /\
  (20 <= 30 <= 30)%Q.
Proof.
  destruct (price_range_bounds_every_price
              [ {[ "price" := "$30.00" ]}; {[ "price" := "$20.00 to $50.00" ]};
                {[ "price" := "N/A" ]} ]
              25 20 30)
    as (_ & _ & _ & Hbounds).
  - reflexivity.
  - split; [reflexivity|]. apply Hbounds. left.
Defined.

Lemma collect_prices_all_fail products :
  Forall (fun product => Summary.price_of product = PyFloat.Fails) products ->
  Summary.collect_prices products = Some [].
Proof.
  intros Hall. rewrite collect_prices_read.
  assert (all_read products = true /\ parsed_prices products = []) as [-> ->];
    [|done].
  unfold all_read, parsed_prices.
  induction Hall as [|product rest Hfails _ [IHread IHparsed]]; [done|].
  simpl. rewrite Hfails. simpl. split; [exact IHread | exact IHparsed].
Qed.

(** X24: [display_summary] prints the number of products and nothing else
    when the price is not selected, when there is no product, and when
    [float] raises [ValueError] on every price (there is no division by
    zero); when there are figures it prints the total, the average and the
    range, in this order. *)
Theorem display_summary_without_prices
    (self : EbayScraper) (products : list (gmap string string)) :
  (selected self "price" = false \/ products = [] ->
   trace <$> Summary.display_summary self products
   = Some [PrintTotal (length products)]) /\
  (Forall (fun product => Summary.price_of product = PyFloat.Fails) products ->
   Summary.price_statistics products = Some None /\
   trace <$> Summary.display_summary self products
   = Some [PrintTotal (length products)]) /\
  (forall avg lo hi,
     selected self "price" = true ->
     Summary.price_statistics products = Some (Some (avg, lo, hi)) ->
     trace <$> Summary.display_summary self products
     = Some [PrintTotal (length products); PrintAverage avg; PrintRange lo hi]).
Proof.
  unfold Summary.display_summary. split; [|split].
  - intros [->| ->]; [done|]. by rewrite andb_false_r.
  - intros Hall.
    assert (Summary.price_statistics products = Some None) as Hstats
      by (unfold Summary.price_statistics;
          by rewrite collect_prices_all_fail).
    split; [done|]. rewrite Hstats. by destruct (_ && _).
  - intros avg lo hi Hsel Hstats. rewrite Hsel, Hstats.
    destruct products as [|p rest]; [discriminate|]. reflexivity.
Qed.

Lemma display_summary_without_prices_witness :
  Summary.price_statistics
    [ {[ "price" := "N/A" ]}; {[ "price" := "Free" ]} ] = Some None /\
  trace <$> Summary.display_summary price_only
              [ {[ "price" := "N/A" ]}; {[ "price" := "Free" ]} ]
  = Some [PrintTotal 2].
Proof.
  destruct (display_summary_without_prices price_only
              [ {[ "price" := "N/A" ]}; {[ "price" := "Free" ]} ])
    as (_ & Hnone & _).
  apply Hnone. repeat constructor.
Defined.

Lemma remove_char_cons c x s :
  PyStr.replace (String c "") "" (String x s)
  = if ascii_dec c x then PyStr.replace (String c "") "" s
    else String x (PyStr.replace (String c "") "" s).
Proof.
  change (PyStr.replace (String c "") "" (String x s))
    with (if String.prefix (String c "") (String x s)
          then "" +:+ PyStr.replace_from (String c "") "" 0 s
          else String x (PyStr.replace_from (String c "") "" 0 s)).
  rewrite prefix_cons, prefix_empty. by destruct (ascii_dec c x).
Qed.

Lemma remove_char_app c a b :
  PyStr.replace (String c "") "" (a +:+ b)
  = PyStr.replace (String c "") "" a +:+ PyStr.replace (String c "") "" b.
Proof.
  induction a as [|x a IH]; [done|].
  change (String x a +:+ b) with (String x (a +:+ b)).
  rewrite !remove_char_cons, IH. by destruct (ascii_dec c x).
Qed.

Lemma clean_price_without_sign a b sign :
  sign = "$" \/ sign = "," ->
  Summary.clean_price (a +:+ sign +:+ b) = Summary.clean_price (a +:+ b).
Proof.
  unfold Summary.clean_price. intros [-> | ->].
  - do 3 f_equal.
    rewrite (remove_char_app "$" a ("$" +:+ b)), (remove_char_app "$" a b).
    change ("$" +:+ b) with (String "$" b).
    rewrite (remove_char_cons "$" "$" b).
    by destruct (ascii_dec "$" "$").
  - do 2 f_equal.
    rewrite (remove_char_app "$" a ("," +:+ b)), (remove_char_app "$" a b).
    change ("," +:+ b) with (String "," b).
    rewrite (remove_char_cons "$" "," b).
    destruct (ascii_dec "$" ","); [discriminate|].
    change (String "," (PyStr.replace "$" "" b))
      with ("," +:+ PyStr.replace "$" "" b).
    rewrite (remove_char_app "," (PyStr.replace "$" "" a)
               ("," +:+ PyStr.replace "$" "" b)),
      (remove_char_app "," (PyStr.replace "$" "" a) (PyStr.replace "$" "" b)).
    change ("," +:+ PyStr.replace "$" "" b)
      with (String "," (PyStr.replace "$" "" b)).
    rewrite (remove_char_cons "," "," (PyStr.replace "$" "" b)).
    by destruct (ascii_dec "," ",").
Qed.

(** X25: dollar signs and thousands separators are ignored wherever they
    stand in a price: a product counts for the same price, or is skipped
    alike, with or without them. *)
Theorem price_ignores_dollar_and_comma
    (product : gmap string string) (a b sign : string) :
  sign = "$" \/ sign = "," ->
  Summary.price_of (<["price" := a +:+ sign +:+ b]> product)
  = Summary.price_of (<["price" := a +:+ b]> product).
Proof.
  intros Hsign. unfold Summary.price_of, dict_get.
  rewrite !lookup_insert_eq. by rewrite clean_price_without_sign.
Qed.

Lemma price_ignores_dollar_and_comma_witness :
  Summary.price_of (<["price" := "1" +:+ "," +:+ "299.00"]> ∅)
  = Summary.price_of (<["price" := "1" +:+ "299.00"]> ∅).
Proof. apply price_ignores_dollar_and_comma. by right. Defined.
